(** * OpenHue MCP server: a shallow embedding of [src/index.ts]

    The server is a thin adapter: a call-tool request carries a tool name
    and an argument bag; three handlers validate the bag with a zod schema,
    every handler builds one command line by string concatenation, runs it
    through [child_process.exec] and shapes the outcome into a response.

    The embedding follows the source function by function.  What the source
    takes from its runtime is modelled next to it and named as such:
    JavaScript value conversions, zod's parsing of the three object
    schemas, Node's [exec], and (for the quoting claims only) the word
    splitting of the POSIX shell that [exec] hands the command line to. *)

From Stdlib Require Import ZArith QArith Ascii String List Lia DecimalString.
From stdpp Require Import base option gmap strings list fin_maps.

Local Open Scope string_scope.
Local Open Scope Z_scope.

(** ** JavaScript numbers

    The numbers of an argument bag are what [JSON.parse] makes of the
    number literals of the request: finite doubles, or an infinity for a
    literal beyond the range of a double; never NaN.  A finite number is
    written here by the decimal JavaScript itself prints for it, the
    shortest one that reads back as the same double: [Finite s m e] is
    the number whose shortest decimal is [m * 10 ^ e], negated when [s].
    A zero mantissa is the number zero, of either sign.  Comparing with an
    integer bound and printing, the two things the server does with a
    number, are both exact on this representation.  (A term whose digits
    are not the shortest decimal of any double, such as an integer above
    2^53 that no double holds, stands for no number; the properties below
    hold of all terms, and so of every number.) *)

Inductive JsNumber : Type :=
| Finite (negative : bool) (mantissa : N) (exponent : Z)
| Infinite (negative : bool).

(** The number written [mantissa * 10 ^ exponent], and the integers. *)
Definition decimal (mantissa exponent : Z) : JsNumber :=
  Finite (mantissa <? 0) (Z.abs_N mantissa) exponent.

Definition number_of_Z (z : Z) : JsNumber := decimal z 0.

Coercion number_of_Z : Z >-> JsNumber.

Definition finite_value (negative : bool) (mantissa : N) (exponent : Z) : Q :=
  let m := if negative then - Z.of_N mantissa else Z.of_N mantissa in
  if 0 <=? exponent then inject_Z (m * 10 ^ exponent)
  else Qmake m (Z.to_pos (10 ^ (- exponent))).

(** [x < bound] and [x > bound], for an integer bound. *)
Definition number_lt (x : JsNumber) (bound : Z) : bool :=
  match x with
  | Finite negative mantissa exponent =>
      negb (Qle_bool (inject_Z bound) (finite_value negative mantissa exponent))
  | Infinite negative => negative
  end.

Definition number_gt (x : JsNumber) (bound : Z) : bool :=
  match x with
  | Finite negative mantissa exponent =>
      negb (Qle_bool (finite_value negative mantissa exponent) (inject_Z bound))
  | Infinite negative => negb negative
  end.

Definition digits_of (n : N) : string :=
  NilZero.string_of_uint (N.to_uint n).

Fixpoint strip_trailing_zeros (s : string) : string :=
  match s with
  | EmptyString => EmptyString
  | String c rest =>
      match strip_trailing_zeros rest with
      | EmptyString => if Ascii.eqb c "0" then EmptyString else String c ""
      | kept => String c kept
      end
  end.

Fixpoint zeros (n : nat) : string :=
  match n with
  | O => ""
  | S k => String "0" (zeros k)
  end.

Fixpoint take_chars (n : nat) (s : string) : string :=
  match n, s with
  | S k, String c rest => String c (take_chars k rest)
  | _, _ => ""
  end.

Fixpoint drop_chars (n : nat) (s : string) : string :=
  match n, s with
  | S k, String _ rest => drop_chars k rest
  | _, _ => s
  end.

Definition exponent_text (e : Z) : string :=
  "e" +:+ (if e <? 0 then "-" else "+") +:+ digits_of (Z.abs_N e).

(** The layout rules of [Number::toString] for the significant digits
    [s], of which the first [n] stand before the decimal point: plain
    digits up to 21 of them, a decimal point inside or up to six zeros
    before the digits, and the exponent form otherwise. *)
Definition format_digits (s : string) (n : Z) : string :=
  let k := Z.of_nat (String.length s) in
  if (k <=? n) && (n <=? 21) then s +:+ zeros (Z.to_nat (n - k))
  else if (0 <? n) && (n <=? 21) then
    take_chars (Z.to_nat n) s +:+ "." +:+ drop_chars (Z.to_nat n) s
  else if (-6 <? n) && (n <=? 0) then "0." +:+ zeros (Z.to_nat (- n)) +:+ s
  else
    match drop_chars 1 s with
    | EmptyString => s +:+ exponent_text (n - 1)
    | fraction => take_chars 1 s +:+ "." +:+ fraction +:+ exponent_text (n - 1)
    end.

(** Number-to-string conversion.  Zero prints as [0] whatever its sign. *)
Definition number_to_string (x : JsNumber) : string :=
  match x with
  | Finite negative mantissa exponent =>
      let all := digits_of mantissa in
      match strip_trailing_zeros all with
      | EmptyString => "0"
      | s =>
          (if negative then "-" else "")
            +:+ format_digits s (Z.of_nat (String.length all) + exponent)
      end
  | Infinite negative => if negative then "-Infinity" else "Infinity"
  end.

(** ** JavaScript values

    The argument bag arrives as parsed JSON, so its values are JSON
    values. *)

Set Warnings "-register-all".

Inductive JsValue : Type :=
| JNull
| JBool (b : bool)
| JNum (n : JsNumber)
| JStr (s : string)
| JArr (items : list JsValue)
| JObj (fields : list (string * JsValue)).

Arguments number_to_string : simpl never.

(** [String(v)], as a template literal applies it to an interpolated
    value; [None] when the conversion throws.  An array prints its items
    joined by commas, with [null] items printed as nothing.  An object
    prints through the [toString] it finds: the inherited one gives the
    fixed text below; an own property of that name hides it, and as no
    JSON value can be called the conversion then ends in a TypeError. *)
Fixpoint to_string (v : JsValue) : option string :=
  match v with
  | JNull => Some "null"
  | JBool true => Some "true"
  | JBool false => Some "false"
  | JNum n => Some (number_to_string n)
  | JStr s => Some s
  | JArr items =>
      (fix join (l : list JsValue) : option string :=
         match l with
         | [] => Some ""
         | x :: rest =>
             match match x with JNull => Some "" | _ => to_string x end with
             | None => None
             | Some sx =>
                 match rest with
                 | [] => Some sx
                 | _ :: _ =>
                     match join rest with
                     | None => None
                     | Some sr => Some (sx +:+ "," +:+ sr)
                     end
                 end
             end
         end) items
  | JObj fields =>
      if existsb (fun kv => String.eqb (fst kv) "toString") fields
      then None
      else Some "[object Object]"
  end.

(** The text a template literal puts in for a possibly missing property
    that it can convert; [None] is JavaScript's [undefined]. *)
Definition template (v : option JsValue) : string :=
  match v with
  | None => "undefined"
  | Some x =>
      match to_string x with
      | Some s => s
      | None => ""
      end
  end.

(** Truthiness, as [if (x)] tests it. *)
Definition truthy (v : option JsValue) : bool :=
  match v with
  | None => false
  | Some JNull => false
  | Some (JBool b) => b
  | Some (JNum (Finite _ mantissa _)) => negb (mantissa =? 0)%N
  | Some (JNum (Infinite _)) => true
  | Some (JStr s) => negb (String.eqb s "")
  | Some (JArr _) => true
  | Some (JObj _) => true
  end.

(** The argument bag of a request: absent, or an object keyed by strings.
    [args?.key] reads a property of a bag that may be absent. *)
Definition opt_get (args : option (gmap string JsValue)) (key : string)
  : option JsValue :=
  match args with
  | None => None
  | Some o => o !! key
  end.

(** The runtime's type name of a value, as zod reports it in a message. *)
Definition parsed_type (v : option JsValue) : string :=
  match v with
  | None => "undefined"
  | Some JNull => "null"
  | Some (JBool _) => "boolean"
  | Some (JNum _) => "number"
  | Some (JStr _) => "string"
  | Some (JArr _) => "array"
  | Some (JObj _) => "object"
  end.

(** [x !== undefined] *)
Definition defined (v : option JsValue) : bool :=
  match v with
  | Some _ => true
  | None => false
  end.

(** ** Errors and the handler monad

    A handler either returns, throws, or awaits one subprocess.  The tree
    below records exactly that: [Exec cmd k] hands the command line [cmd]
    to the operating system and continues with [k] on what came back. *)

Record ZodIssue : Type := { path : list string; message : string }.

Inductive JsError : Type :=
| ZodError (errors : list ZodIssue)
| Error (msg : string).

(** What a finished [exec] reports: the exit code with both captured
    streams, or that no exit code was obtained (the process could not be
    spawned, was killed, or overflowed its buffer), with the runtime's
    error message. *)
Inductive ExecOutcome : Type :=
| Exited (code : Z) (stdout stderr : string)
| ExecFailed (msg : string).

Inductive Prog (A : Type) : Type :=
| Ret (a : A)
| Throw (e : JsError)
| Exec (cmd : string) (k : ExecOutcome -> Prog A).

Arguments Ret {A} a.
Arguments Throw {A} e.
Arguments Exec {A} cmd k.

Fixpoint bind {A B} (p : Prog A) (f : A -> Prog B) : Prog B :=
  match p with
  | Ret a => f a
  | Throw e => Throw e
  | Exec cmd k => Exec cmd (fun o => bind (k o) f)
  end.

(** [try { p } catch (error) { handler error }] *)
Fixpoint try_catch {A} (p : Prog A) (handler : JsError -> Prog A) : Prog A :=
  match p with
  | Ret a => Ret a
  | Throw e => handler e
  | Exec cmd k => Exec cmd (fun o => try_catch (k o) handler)
  end.

#[global] Instance Prog_ret : MRet Prog := fun _ a => Ret a.
#[global] Instance Prog_bind : MBind Prog := fun _ _ f p => bind p f.

(** Running a handler against an operating system that answers every
    command line with an outcome. *)
Fixpoint run {A} (os : string -> ExecOutcome) (p : Prog A) : A + JsError :=
  match p with
  | Ret a => inl a
  | Throw e => inr e
  | Exec cmd k => run os (k (os cmd))
  end.

Definition newline : string := String (ascii_of_nat 10) "".

(** [promisify(exec)]: resolves with both streams when the command exits
    with status zero; otherwise rejects with Node's error, whose message
    is the fixed text, the command line, a line break and the captured
    standard error. *)
Definition execAsync (cmd : string) : Prog (string * string) :=
  Exec cmd (fun o =>
    match o with
    | Exited code stdout stderr =>
        if code =? 0 then Ret (stdout, stderr)
        else Throw (Error ("Command failed: " +:+ cmd +:+ newline +:+ stderr))
    | ExecFailed msg => Throw (Error msg)
    end).

(** The message of the TypeError that the conversion of an object to a
    string ends in, as Node words it. *)
Definition type_error : JsError :=
  Error "Cannot convert object to primitive value".

(** [${v}] inside a template literal: the text of [v], or the throw. *)
Definition interpolate (v : option JsValue) : Prog string :=
  match v with
  | None => Ret "undefined"
  | Some x =>
      match to_string x with
      | Some s => Ret s
      | None => Throw type_error
      end
  end.

(** ** The shell's view of a command line

    [exec] hands the command line to [/bin/sh -c].  The model below is the
    word splitting of the POSIX shell on the fragment without expansion:
    blanks separate words, double and single quotes group, a backslash
    escapes.  [None] stands for a command line outside the fragment: a
    quote left open, or a character on which the shell would expand,
    match file names, redirect, or start another command (the characters
    that do so only in some positions are all counted in). *)

Inductive CharClass : Type :=
| Blank | DoubleQuote | SingleQuote | Backslash | Dollar | Backquote
| Special | Literal.

Definition char_class (c : ascii) : CharClass :=
  match c with
  | " " | "009" => Blank
  | "034" => DoubleQuote
  | "'" => SingleQuote
  | "\" => Backslash
  | "$" => Dollar
  | "`" => Backquote
  | "010" | "|" | "&" | ";" | "<" | ">" | "(" | ")" | "*" | "?" | "["
  | "~" | "#" => Special
  | _ => Literal
  end%char.

Inductive LexMode : Type :=
| Unquoted | UnquotedEscape | InDouble | InDoubleEscape | InSingle.

(** Adds a character to the word in progress, starting one if need be. *)
Definition push (cur : option string) (c : ascii) : option string :=
  match cur with
  | Some w => Some (w +:+ String c "")
  | None => Some (String c "")
  end.

(** Opens a quote: there is a word in progress from here on, even if it
    stays empty. *)
Definition open_word (cur : option string) : option string :=
  match cur with
  | Some w => Some w
  | None => Some ""
  end.

Definition flush (cur : option string) (acc : list string) : list string :=
  match cur with
  | Some w => (acc ++ [w])%list
  | None => acc
  end.

Fixpoint sh_lex (s : string) (m : LexMode) (cur : option string)
    (acc : list string) : option (list string) :=
  match s with
  | EmptyString =>
      match m with
      | Unquoted => Some (flush cur acc)
      | _ => None
      end
  | String c rest =>
      match m with
      | Unquoted =>
          match char_class c with
          | Blank => sh_lex rest Unquoted None (flush cur acc)
          | DoubleQuote => sh_lex rest InDouble (open_word cur) acc
          | SingleQuote => sh_lex rest InSingle (open_word cur) acc
          | Backslash => sh_lex rest UnquotedEscape cur acc
          | Literal => sh_lex rest Unquoted (push cur c) acc
          | _ => None
          end
      | UnquotedEscape =>
          if Ascii.eqb c "010" then sh_lex rest Unquoted cur acc
          else sh_lex rest Unquoted (push cur c) acc
      | InDouble =>
          match char_class c with
          | DoubleQuote => sh_lex rest Unquoted cur acc
          | Backslash => sh_lex rest InDoubleEscape cur acc
          | Dollar | Backquote => None
          | _ => sh_lex rest InDouble (push cur c) acc
          end
      | InDoubleEscape =>
          match char_class c with
          | DoubleQuote | Backslash | Dollar | Backquote =>
              sh_lex rest InDouble (push cur c) acc
          | _ =>
              if Ascii.eqb c "010" then sh_lex rest InDouble cur acc
              else sh_lex rest InDouble (push (push cur "\") c) acc
          end
      | InSingle =>
          match char_class c with
          | SingleQuote => sh_lex rest Unquoted cur acc
          | _ => sh_lex rest InSingle (push cur c) acc
          end
      end
  end.

(** The arguments the shell passes on for a command line. *)
Definition sh_words (cmd : string) : option (list string) :=
  sh_lex cmd Unquoted None [].

(** ** zod, as far as the three schemas use it

    A schema is a value built once by the fluent calls of the source; at
    run time [parse] walks it over the argument bag.  Types are erased at
    run time, so the parsed result is again an object of JSON values. *)

Inductive NumberCheck : Type :=
| CheckMin (value : Z)
| CheckMax (value : Z).

Inductive ZodType : Type :=
| ZodString
| ZodNumber (checks : list NumberCheck)
| ZodEnum (values : list string)
| ZodOptional (inner : ZodType).

Record ZodObject : Type := { shape : list (string * ZodType) }.

(** The fluent builders.  [z_min] and [z_max] add a check to a number
    schema, as [.min(n)] and [.max(n)] do. *)
Definition z_string : ZodType := ZodString.
Definition z_number : ZodType := ZodNumber [].
Definition z_min (value : Z) (t : ZodType) : ZodType :=
  match t with
  | ZodNumber checks => ZodNumber (checks ++ [CheckMin value])
  | _ => t
  end.
Definition z_max (value : Z) (t : ZodType) : ZodType :=
  match t with
  | ZodNumber checks => ZodNumber (checks ++ [CheckMax value])
  | _ => t
  end.
Definition z_enum (values : list string) : ZodType := ZodEnum values.
Definition z_optional (t : ZodType) : ZodType := ZodOptional t.
Definition z_object (shape : list (string * ZodType)) : ZodObject :=
  {| shape := shape |}.

(** Messages of zod's default error map. *)
Definition invalid_type (expected : string) (v : option JsValue) : string :=
  match v with
  | None => "Required"
  | Some _ => "Expected " +:+ expected +:+ ", received " +:+ parsed_type v
  end.

Definition check_number (n : JsNumber) (c : NumberCheck) : list string :=
  match c with
  | CheckMin value =>
      if number_lt n value
      then ["Number must be greater than or equal to "
              +:+ number_to_string value]
      else []
  | CheckMax value =>
      if number_gt n value
      then ["Number must be less than or equal to " +:+ number_to_string value]
      else []
  end.

Definition join_values (values : list string) : string :=
  String.concat " | " (map (fun v => "'" +:+ v +:+ "'") values).

(** The messages of the issues one value raises against a type; no issue
    means the value is accepted, and zod hands it on unchanged. *)
Fixpoint type_issues (t : ZodType) (v : option JsValue) : list string :=
  match t with
  | ZodString =>
      match v with
      | Some (JStr _) => []
      | _ => [invalid_type "string" v]
      end
  | ZodNumber checks =>
      match v with
      | Some (JNum n) => flat_map (check_number n) checks
      | _ => [invalid_type "number" v]
      end
  | ZodEnum values =>
      match v with
      | Some (JStr s) =>
          if existsb (String.eqb s) values then []
          else ["Invalid enum value. Expected " +:+ join_values values
                  +:+ ", received '" +:+ s +:+ "'"]
      | _ => [invalid_type (join_values values) v]
      end
  | ZodOptional inner =>
      match v with
      | None => []
      | Some _ => type_issues inner v
      end
  end.

(** An object schema visits every key of its shape, in order, and gathers
    the issues of all of them, each under the key as its path. *)
Definition key_issues (data : gmap string JsValue) (kt : string * ZodType)
  : list ZodIssue :=
  map (fun m => {| path := [fst kt]; message := m |})
      (type_issues (snd kt) (data !! fst kt)).

Definition object_issues (shape : list (string * ZodType))
    (data : gmap string JsValue) : list ZodIssue :=
  flat_map (key_issues data) shape.

(** The parsed object keeps the keys of the shape that the input defines
    and drops every other key. *)
Definition strip (shape : list (string * ZodType))
    (data : gmap string JsValue) : gmap string JsValue :=
  foldr (fun kt acc =>
           match data !! fst kt with
           | Some v => <[fst kt := v]> acc
           | None => acc
           end) ∅ shape.

Definition safe_parse (schema : ZodObject)
    (args : option (gmap string JsValue))
  : gmap string JsValue + list ZodIssue :=
  match args with
  | None => inr [{| path := []; message := "Required" |}]
  | Some data =>
      match object_issues (shape schema) data with
      | [] => inl (strip (shape schema) data)
      | issues => inr issues
      end
  end.

(** [schema.parse(args)] *)
Definition parse (schema : ZodObject) (args : option (gmap string JsValue))
  : Prog (gmap string JsValue) :=
  match safe_parse schema args with
  | inl params => Ret params
  | inr issues => Throw (ZodError issues)
  end.

(** ** The server *)

(** The double quote character the source writes inside its templates. *)
Definition dq : string := String (ascii_of_nat 34) "".

(** What the server reads from its host: [os.homedir] and [path.join]. *)
Record Host : Type := { homedir : string; join : string -> string -> string }.

Definition LightActionSchema : ZodObject :=
  z_object
    [ ("target", z_string);
      ("action", z_enum ["on"; "off"]);
      ("brightness", z_optional (z_max 100 (z_min 0 z_number)));
      ("color", z_optional z_string);
      ("temperature", z_optional (z_max 500 (z_min 153 z_number))) ].

Definition RoomActionSchema : ZodObject :=
  z_object
    [ ("target", z_string);
      ("action", z_enum ["on"; "off"]);
      ("brightness", z_optional (z_max 100 (z_min 0 z_number)));
      ("color", z_optional z_string);
      ("temperature", z_optional (z_max 500 (z_min 153 z_number))) ].

Definition SceneActionSchema : ZodObject :=
  z_object
    [ ("name", z_string);
      ("room", z_optional z_string);
      ("mode", z_optional (z_enum ["active"; "dynamic"; "static"])) ].

(** *** Tool discovery *)

Inductive JsonType : Type := TString | TNumber.

Module Property.
Record t : Type := mk {
  type : JsonType;
  enum : option (list string);
  minimum : option Z;
  maximum : option Z;
  description : string;
}.
End Property.

Module InputSchema.
(** Every input schema of the catalog has type [object]. *)
Record t : Type := mk {
  properties : list (string * Property.t);
  required : list string;
}.
End InputSchema.

Module Tool.
Record t : Type := mk {
  name : string;
  description : string;
  inputSchema : InputSchema.t;
}.
End Tool.

Definition string_property (description : string) : Property.t :=
  Property.mk TString None None None description.

Definition enum_property (values : list string) (description : string)
  : Property.t :=
  Property.mk TString (Some values) None None description.

Definition number_property (minimum maximum : Z) (description : string)
  : Property.t :=
  Property.mk TNumber None (Some minimum) (Some maximum) description.

(** The answer of the list-tools handler. *)
Definition tools : list Tool.t :=
  [ Tool.mk "get-lights"
      "List all Hue lights or get details for a specific light"
      (InputSchema.mk
         [ ("lightId", string_property
              "Optional light ID or name to get specific light details");
           ("room", string_property "Optional room name to filter lights") ]
         []);
    Tool.mk "control-light" "Control a specific Hue light"
      (InputSchema.mk
         [ ("target", string_property "Light ID or name");
           ("action", enum_property ["on"; "off"] "Turn light on or off");
           ("brightness", number_property 0 100
              "Optional brightness level (0-100)");
           ("color", string_property
              "Optional color name (e.g., 'red', 'blue')");
           ("temperature", number_property 153 500
              "Optional color temperature in Mirek") ]
         ["target"; "action"]);
    Tool.mk "get-rooms" "List all rooms or get details for a specific room"
      (InputSchema.mk
         [ ("roomId", string_property
              "Optional room ID or name to get specific room details") ]
         []);
    Tool.mk "control-room" "Control all lights in a room"
      (InputSchema.mk
         [ ("target", string_property "Room ID or name");
           ("action", enum_property ["on"; "off"]
              "Turn room lights on or off");
           ("brightness", number_property 0 100
              "Optional brightness level (0-100)");
           ("color", string_property "Optional color name");
           ("temperature", number_property 153 500
              "Optional color temperature in Mirek") ]
         ["target"; "action"]);
    Tool.mk "get-scenes" "List all scenes or get details for specific scenes"
      (InputSchema.mk
         [ ("room", string_property "Optional room name to filter scenes") ]
         []);
    Tool.mk "activate-scene" "Activate a specific scene"
      (InputSchema.mk
         [ ("name", string_property "Scene name or ID");
           ("room", string_property "Optional room name for the scene");
           ("mode", enum_property ["active"; "dynamic"; "static"]
              "Optional scene mode") ]
         ["name"]) ].

(** JSON Schema, as far as the catalog uses it: whether a value meets the
    type of a property and the enum, minimum and maximum it states. *)
Definition property_accepts (p : Property.t) (v : JsValue) : bool :=
  match Property.type p, v with
  | TString, JStr s =>
      match Property.enum p with
      | Some values => existsb (String.eqb s) values
      | None => true
      end
  | TNumber, JNum n =>
      match Property.minimum p with
      | Some lo => negb (number_lt n lo)
      | None => true
      end
      && match Property.maximum p with
         | Some hi => negb (number_gt n hi)
         | None => true
         end
  | _, _ => false
  end.

Definition property_ok (data : gmap string JsValue)
    (kp : string * Property.t) : bool :=
  match data !! fst kp with
  | Some v => property_accepts (snd kp) v
  | None => true
  end.

(** A bag conforms when every property it carries is accepted and every
    required key is there. *)
Definition conforms (schema : InputSchema.t) (data : gmap string JsValue)
  : bool :=
  forallb (property_ok data) (InputSchema.properties schema)
  && forallb (fun key => defined (data !! key)) (InputSchema.required schema).

(** *** Tool execution *)

Module TextContent.
Record t : Type := mk { type : string; text : string }.
End TextContent.

Record Response : Type := { content : list TextContent.t }.

Definition text_response (text : string) : Response :=
  {| content := [TextContent.mk "text" text] |}.

Record CallToolRequest : Type := {
  name : string;
  arguments : option (gmap string JsValue);
}.

Section Server.

Variable host : Host.

Definition getConfigPath : string :=
  let homeDir := homedir host in
  join host homeDir ".openhue".

Definition buildDockerCommand (command : string) : string :=
  let configPath := getConfigPath in
  "docker run -v " +:+ dq +:+ configPath +:+ ":/.openhue" +:+ dq
    +:+ " --rm openhue/cli " +:+ command.

(** The two [console.error] lines write to the server's own log and do
    not change what is returned or thrown; they are left out. *)
Definition executeHueCommand (command : string) : Prog string :=
  try_catch
    ('(stdout, stderr) ← execAsync (buildDockerCommand command);
     if negb (String.eqb stderr "")
     then Throw (Error stderr)
     else mret stdout)
    (fun error => Throw error).

(** The handlers.  A template literal converts its values from left to
    right, and a conditional append converts its value only when the test
    lets it run. *)
Definition get_lights (args : option (gmap string JsValue))
  : Prog Response :=
  let command := "get light" in
  command ←
    (if truthy (opt_get args "lightId")
     then lightId ← interpolate (opt_get args "lightId");
          mret (command +:+ " " +:+ dq +:+ lightId +:+ dq)
     else mret command);
  command ←
    (if truthy (opt_get args "room")
     then room ← interpolate (opt_get args "room");
          mret (command +:+ " --room " +:+ dq +:+ room +:+ dq)
     else mret command);
  let command := command +:+ " --json" in
  result ← executeHueCommand command;
  mret (text_response result).

Definition control_light (args : option (gmap string JsValue))
  : Prog Response :=
  params ← parse LightActionSchema args;
  target ← interpolate (params !! "target");
  action ← interpolate (params !! "action");
  let command := "set light " +:+ dq +:+ target +:+ dq +:+ " --" +:+ action in
  command ←
    (if defined (params !! "brightness")
     then brightness ← interpolate (params !! "brightness");
          mret (command +:+ " --brightness " +:+ brightness)
     else mret command);
  command ←
    (if truthy (params !! "color")
     then color ← interpolate (params !! "color");
          mret (command +:+ " --color " +:+ color)
     else mret command);
  command ←
    (if truthy (params !! "temperature")
     then temperature ← interpolate (params !! "temperature");
          mret (command +:+ " --temperature " +:+ temperature)
     else mret command);
  _ ← executeHueCommand command;
  target ← interpolate (params !! "target");
  action ← interpolate (params !! "action");
  mret (text_response
          ("Successfully set light " +:+ dq +:+ target +:+ dq +:+ " to "
             +:+ action)).

Definition get_rooms (args : option (gmap string JsValue))
  : Prog Response :=
  let command := "get room" in
  command ←
    (if truthy (opt_get args "roomId")
     then roomId ← interpolate (opt_get args "roomId");
          mret (command +:+ " " +:+ dq +:+ roomId +:+ dq)
     else mret command);
  let command := command +:+ " --json" in
  result ← executeHueCommand command;
  mret (text_response result).

Definition control_room (args : option (gmap string JsValue))
  : Prog Response :=
  params ← parse RoomActionSchema args;
  target ← interpolate (params !! "target");
  action ← interpolate (params !! "action");
  let command := "set room " +:+ dq +:+ target +:+ dq +:+ " --" +:+ action in
  command ←
    (if defined (params !! "brightness")
     then brightness ← interpolate (params !! "brightness");
          mret (command +:+ " --brightness " +:+ brightness)
     else mret command);
  command ←
    (if truthy (params !! "color")
     then color ← interpolate (params !! "color");
          mret (command +:+ " --color " +:+ color)
     else mret command);
  command ←
    (if truthy (params !! "temperature")
     then temperature ← interpolate (params !! "temperature");
          mret (command +:+ " --temperature " +:+ temperature)
     else mret command);
  _ ← executeHueCommand command;
  target ← interpolate (params !! "target");
  action ← interpolate (params !! "action");
  mret (text_response
          ("Successfully set room " +:+ dq +:+ target +:+ dq +:+ " to "
             +:+ action)).

Definition get_scenes (args : option (gmap string JsValue))
  : Prog Response :=
  let command := "get scene" in
  command ←
    (if truthy (opt_get args "room")
     then room ← interpolate (opt_get args "room");
          mret (command +:+ " --room " +:+ dq +:+ room +:+ dq)
     else mret command);
  let command := command +:+ " --json" in
  result ← executeHueCommand command;
  mret (text_response result).

Definition activate_scene (args : option (gmap string JsValue))
  : Prog Response :=
  params ← parse SceneActionSchema args;
  name ← interpolate (params !! "name");
  let command := "set scene " +:+ dq +:+ name +:+ dq in
  command ←
    (if truthy (params !! "room")
     then room ← interpolate (params !! "room");
          mret (command +:+ " --room " +:+ dq +:+ room +:+ dq)
     else mret command);
  command ←
    (if truthy (params !! "mode")
     then mode ← interpolate (params !! "mode");
          mret (command +:+ " --action " +:+ mode)
     else mret command);
  _ ← executeHueCommand command;
  name ← interpolate (params !! "name");
  mret (text_response
          ("Successfully activated scene " +:+ dq +:+ name +:+ dq)).

(** The call-tool handler: the [switch] on the tool name inside the
    [try], and the [catch] that rewrites a zod error. *)
Definition call_tool (request : CallToolRequest) : Prog Response :=
  let name := name request in
  let args := arguments request in
  try_catch
    (if String.eqb name "get-lights" then get_lights args
     else if String.eqb name "control-light" then control_light args
     else if String.eqb name "get-rooms" then get_rooms args
     else if String.eqb name "control-room" then control_room args
     else if String.eqb name "get-scenes" then get_scenes args
     else if String.eqb name "activate-scene" then activate_scene args
     else Throw (Error ("Unknown tool: " +:+ name)))
    (fun error =>
       match error with
       | ZodError errors =>
           Throw (Error
             ("Invalid arguments: " +:+
                String.concat ", "
                  (map (fun e =>
                          String.concat "." (path e) +:+ ": " +:+ message e)
                       errors)))
       | _ => Throw error
       end).

End Server.

(** ** Vocabulary of the properties *)

(** The command line a handler hands to the operating system first. *)
Definition built_command {A} (p : Prog A) : option string :=
  match p with
  | Exec cmd _ => Some cmd
  | _ => None
  end.

(** The message the [catch] block builds from the issues of a zod error. *)
Definition invalid_arguments (issues : list ZodIssue) : string :=
  "Invalid arguments: " +:+
    String.concat ", "
      (map (fun e => String.concat "." (path e) +:+ ": " +:+ message e)
           issues).

(** What running one command through [executeHueCommand] comes to. *)
Definition execution_result (cmd : string) (o : ExecOutcome)
  : string + JsError :=
  match o with
  | Exited code stdout stderr =>
      if code =? 0 then
        if String.eqb stderr "" then inl stdout else inr (Error stderr)
      else inr (Error ("Command failed: " +:+ cmd +:+ newline +:+ stderr))
  | ExecFailed msg => inr (Error msg)
  end.

(** [needle] occurs in [hay] as a contiguous piece. *)
Definition contains (needle hay : string) : Prop :=
  exists pre post, hay = pre +:+ needle +:+ post.

(** How often [needle] occurs in [hay], counting overlapping places. *)
Fixpoint occurrences (needle hay : string) : nat :=
  ((if String.prefix needle hay then 1 else 0) +
   match hay with
   | EmptyString => 0
   | String _ rest => occurrences needle rest
   end)%nat.

Fixpoint all_chars (P : ascii -> bool) (s : string) : bool :=
  match s with
  | EmptyString => true
  | String c rest => P c && all_chars P rest
  end.

Definition lacks (c : ascii) (s : string) : bool :=
  all_chars (fun x => negb (Ascii.eqb x c)) s.

(** The characters a printed number is made of. *)
Definition number_char (c : ascii) : bool :=
  negb (lacks c "0123456789-+.eInfity").

(** Whether a template literal can convert a value, and whether a
    conditional append goes through: the value is not appended, or it can
    be converted. *)
Definition convertible (v : option JsValue) : bool :=
  match v with
  | None => true
  | Some x =>
      match to_string x with
      | Some _ => true
      | None => false
      end
  end.

Definition appends (v : option JsValue) : bool :=
  negb (truthy v) || convertible v.

(** A number is in the range of its checks when it is neither below the
    lower bound nor above the upper one. *)
Definition within (lo hi : Z) (n : JsNumber) : Prop :=
  number_lt n lo = false /\ number_gt n hi = false.

Definition in_shape (key : string) (shape : list (string * ZodType)) : bool :=
  existsb (fun kt => String.eqb (fst kt) key) shape.

(** *** The tools, their commands and confirmations in closed form *)

Definition set_command (kind : string) (params : gmap string JsValue)
  : string :=
  let command :=
    "set " +:+ kind +:+ " " +:+ dq +:+ template (params !! "target") +:+ dq
      +:+ " --" +:+ template (params !! "action") in
  let command :=
    if defined (params !! "brightness")
    then command +:+ " --brightness " +:+ template (params !! "brightness")
    else command in
  let command :=
    if truthy (params !! "color")
    then command +:+ " --color " +:+ template (params !! "color")
    else command in
  if truthy (params !! "temperature")
  then command +:+ " --temperature " +:+ template (params !! "temperature")
  else command.

Definition set_confirmation (kind : string) (params : gmap string JsValue)
  : string :=
  "Successfully set " +:+ kind +:+ " " +:+ dq +:+ template (params !! "target")
    +:+ dq +:+ " to " +:+ template (params !! "action").

Definition scene_command (params : gmap string JsValue) : string :=
  let command := "set scene " +:+ dq +:+ template (params !! "name") +:+ dq in
  let command :=
    if truthy (params !! "room")
    then command +:+ " --room " +:+ dq +:+ template (params !! "room") +:+ dq
    else command in
  if truthy (params !! "mode")
  then command +:+ " --action " +:+ template (params !! "mode")
  else command.

Definition scene_confirmation (params : gmap string JsValue) : string :=
  "Successfully activated scene " +:+ dq +:+ template (params !! "name")
    +:+ dq.

(** The three validating tools: schema, command and confirmation. *)
Inductive WriteTool : Type := ControlLight | ControlRoom | ActivateScene.

Definition write_name (w : WriteTool) : string :=
  match w with
  | ControlLight => "control-light"
  | ControlRoom => "control-room"
  | ActivateScene => "activate-scene"
  end.

Definition write_schema (w : WriteTool) : ZodObject :=
  match w with
  | ControlLight => LightActionSchema
  | ControlRoom => RoomActionSchema
  | ActivateScene => SceneActionSchema
  end.

Definition write_command (w : WriteTool) (params : gmap string JsValue)
  : string :=
  match w with
  | ControlLight => set_command "light" params
  | ControlRoom => set_command "room" params
  | ActivateScene => scene_command params
  end.

Definition write_confirmation (w : WriteTool) (params : gmap string JsValue)
  : string :=
  match w with
  | ControlLight => set_confirmation "light" params
  | ControlRoom => set_confirmation "room" params
  | ActivateScene => scene_confirmation params
  end.

Definition write_request (w : WriteTool) (args : option (gmap string JsValue))
  : CallToolRequest :=
  {| name := write_name w; arguments := args |}.

(** The three read tools, which build their command from the raw bag. *)
Inductive ReadTool : Type := GetLights | GetRooms | GetScenes.

Definition read_name (r : ReadTool) : string :=
  match r with
  | GetLights => "get-lights"
  | GetRooms => "get-rooms"
  | GetScenes => "get-scenes"
  end.

Definition read_command (r : ReadTool) (args : option (gmap string JsValue))
  : string :=
  match r with
  | GetLights =>
      let command := "get light" in
      let command :=
        if truthy (opt_get args "lightId")
        then command +:+ " " +:+ dq +:+ template (opt_get args "lightId")
               +:+ dq
        else command in
      let command :=
        if truthy (opt_get args "room")
        then command +:+ " --room " +:+ dq +:+ template (opt_get args "room")
               +:+ dq
        else command in
      command +:+ " --json"
  | GetRooms =>
      let command := "get room" in
      let command :=
        if truthy (opt_get args "roomId")
        then command +:+ " " +:+ dq +:+ template (opt_get args "roomId")
               +:+ dq
        else command in
      command +:+ " --json"
  | GetScenes =>
      let command := "get scene" in
      let command :=
        if truthy (opt_get args "room")
        then command +:+ " --room " +:+ dq +:+ template (opt_get args "room")
               +:+ dq
        else command in
      command +:+ " --json"
  end.

Definition read_request (r : ReadTool) (args : option (gmap string JsValue))
  : CallToolRequest :=
  {| name := read_name r; arguments := args |}.

(** Whether every value a read tool appends can be converted. *)
Definition read_converts (r : ReadTool) (args : option (gmap string JsValue))
  : bool :=
  match r with
  | GetLights => appends (opt_get args "lightId") && appends (opt_get args "room")
  | GetRooms => appends (opt_get args "roomId")
  | GetScenes => appends (opt_get args "room")
  end.

Definition set_base (kind : string) (params : gmap string JsValue) : string :=
  "set " +:+ kind +:+ " " +:+ dq +:+ template (params !! "target") +:+ dq
    +:+ " --" +:+ template (params !! "action").

Definition brightness_flag (params : gmap string JsValue) : string :=
  if defined (params !! "brightness")
  then " --brightness " +:+ template (params !! "brightness")
  else "".

Definition color_flag (params : gmap string JsValue) : string :=
  if truthy (params !! "color")
  then " --color " +:+ template (params !! "color")
  else "".

Definition temperature_flag (params : gmap string JsValue) : string :=
  if truthy (params !! "temperature")
  then " --temperature " +:+ template (params !! "temperature")
  else "".

Definition kind_of (w : WriteTool) : string :=
  match w with
  | ControlRoom => "room"
  | _ => "light"
  end.

(** The key that names what a write tool acts on. *)
Definition name_key (w : WriteTool) : string :=
  match w with
  | ActivateScene => "name"
  | _ => "target"
  end.

(** The text of the color a bag carries, empty when it carries none. *)
Definition color_text (data : gmap string JsValue) : string :=
  match data !! "color" with
  | Some (JStr c) => c
  | _ => ""
  end.

(** What a flag, which starts with a blank, adds to a count. *)
Definition flag_occurrences (needle flag : string) : nat :=
  match flag with
  | EmptyString => 0%nat
  | String _ rest => occurrences needle rest
  end.

(** *** The advertised schema as a contract *)

(** The contract of the claim for one tool: a conforming bag gets its
    command built, any other bag the invalid-arguments error. *)
Definition enforces_schema (host : Host) (tool : Tool.t) : Prop :=
  forall data,
    (conforms (Tool.inputSchema tool) data = true ->
     exists cmd,
       built_command
         (call_tool host
            {| name := Tool.name tool; arguments := Some data |}) = Some cmd)
    /\ (conforms (Tool.inputSchema tool) data = false ->
        exists issues,
          call_tool host
            {| name := Tool.name tool; arguments := Some data |} =
          Throw (Error (invalid_arguments issues))).

(** *** Command lines as words *)

(** The words of a command line as the builder writes them: bare, or
    between double quotes. *)
Inductive Word : Type :=
| Bare (text : string)
| Quoted (text : string).

Definition word_text (w : Word) : string :=
  match w with
  | Bare s => s
  | Quoted s => s
  end.

Definition render_word (w : Word) : string :=
  match w with
  | Bare s => s
  | Quoted s => dq +:+ s +:+ dq
  end.

Definition unwords (ws : list Word) : string :=
  String.concat " " (map render_word ws).

(** A character that stands for itself outside quotes, and one that
    stands for itself between double quotes. *)
Definition bare_char (c : ascii) : bool :=
  match char_class c with
  | Literal => true
  | _ => false
  end.

Definition quoted_char (c : ascii) : bool :=
  match char_class c with
  | DoubleQuote | Backslash | Dollar | Backquote => false
  | _ => true
  end.

(** A word the shell reads back as written: a bare word is not empty and
    made of literal characters; a quoted word holds no double quote,
    backslash, dollar or backquote. *)
Definition survives (w : Word) : bool :=
  match w with
  | Bare s => all_chars bare_char s && negb (String.eqb s "")
  | Quoted s => all_chars quoted_char s
  end.

(** The words of the fixed container-run prefix. *)
Definition docker_words (host : Host) : list Word :=
  [ Bare "docker"; Bare "run"; Bare "-v";
    Quoted (getConfigPath host +:+ ":/.openhue");
    Bare "--rm"; Bare "openhue/cli" ].

Definition when (b : bool) (ws : list Word) : list Word :=
  if b then ws else [].

(** The words each tool writes after the prefix, for a call that carries
    no color: which of them go between double quotes, and in what order. *)
Definition request_words (request : CallToolRequest) : list Word :=
  let field key := opt_get (arguments request) key in
  let tool := name request in
  if String.eqb tool "get-lights" then
    [Bare "get"; Bare "light"]
      ++ when (truthy (field "lightId")) [Quoted (template (field "lightId"))]
      ++ when (truthy (field "room"))
           [Bare "--room"; Quoted (template (field "room"))]
      ++ [Bare "--json"]
  else if String.eqb tool "control-light" then
    [Bare "set"; Bare "light"; Quoted (template (field "target"));
     Bare ("--" +:+ template (field "action"))]
      ++ when (defined (field "brightness"))
           [Bare "--brightness"; Bare (template (field "brightness"))]
      ++ when (truthy (field "temperature"))
           [Bare "--temperature"; Bare (template (field "temperature"))]
  else if String.eqb tool "get-rooms" then
    [Bare "get"; Bare "room"]
      ++ when (truthy (field "roomId")) [Quoted (template (field "roomId"))]
      ++ [Bare "--json"]
  else if String.eqb tool "control-room" then
    [Bare "set"; Bare "room"; Quoted (template (field "target"));
     Bare ("--" +:+ template (field "action"))]
      ++ when (defined (field "brightness"))
           [Bare "--brightness"; Bare (template (field "brightness"))]
      ++ when (truthy (field "temperature"))
           [Bare "--temperature"; Bare (template (field "temperature"))]
  else if String.eqb tool "get-scenes" then
    [Bare "get"; Bare "scene"]
      ++ when (truthy (field "room"))
           [Bare "--room"; Quoted (template (field "room"))]
      ++ [Bare "--json"]
  else if String.eqb tool "activate-scene" then
    [Bare "set"; Bare "scene"; Quoted (template (field "name"))]
      ++ when (truthy (field "room"))
           [Bare "--room"; Quoted (template (field "room"))]
      ++ when (truthy (field "mode"))
           [Bare "--action"; Bare (template (field "mode"))]
  else [].

(** Whether a call is one of the two that write a color flag. *)
Definition carries_color (request : CallToolRequest) : bool :=
  (String.eqb (name request) "control-light"
   || String.eqb (name request) "control-room")
  && truthy (opt_get (arguments request) "color").

(** The arguments the shell passes on for the command a handler built. *)
Definition shell_arguments {A} (p : Prog A) : option (list string) :=
  match built_command p with
  | Some cmd => sh_words cmd
  | None => None
  end.

(** The contract of the claim for one value of one call: the shell reads
    the built command back with that value as one of its arguments. *)
Definition read_back_whole (host : Host) (request : CallToolRequest)
    (value : string) : Prop :=
  exists argv,
    shell_arguments (call_tool host request) = Some argv /\ In value argv.

(** *** Further vocabulary *)

(** The command lines a handler hands to the operating system, in order,
    when the operating system answers as [os] does. *)
Fixpoint commands_run {A} (os : string -> ExecOutcome) (p : Prog A)
  : list string :=
  match p with
  | Ret _ => []
  | Throw _ => []
  | Exec cmd k => cmd :: commands_run os (k (os cmd))
  end.

(** The keys of the argument bag that the handler of a tool reads. *)
Definition tool_keys (tool : string) : list string :=
  if String.eqb tool "get-lights" then ["lightId"; "room"]
  else if String.eqb tool "control-light" then
    ["target"; "action"; "brightness"; "color"; "temperature"]
  else if String.eqb tool "get-rooms" then ["roomId"]
  else if String.eqb tool "control-room" then
    ["target"; "action"; "brightness"; "color"; "temperature"]
  else if String.eqb tool "get-scenes" then ["room"]
  else if String.eqb tool "activate-scene" then ["name"; "room"; "mode"]
  else [].

(** The key of a write tool that takes one of a fixed list of words. *)
Definition enum_key (w : WriteTool) : string :=
  match w with
  | ActivateScene => "mode"
  | _ => "action"
  end.

Definition enum_values (w : WriteTool) : list string :=
  match w with
  | ActivateScene => ["active"; "dynamic"; "static"]
  | _ => ["on"; "off"]
  end.

(** The room and mode flags of activate-scene, by the fields of the bag. *)
Definition scene_room_flag (data : gmap string JsValue) : string :=
  match data !! "room" with
  | Some (JStr r) =>
      if String.eqb r "" then "" else " --room " +:+ dq +:+ r +:+ dq
  | _ => ""
  end.

Definition scene_mode_flag (data : gmap string JsValue) : string :=
  match data !! "mode" with
  | Some (JStr m) => " --action " +:+ m
  | _ => ""
  end.

(** *** Worked inputs *)

(** A host for worked examples: a POSIX home directory. *)
Definition posix_host : Host :=
  {| homedir := "/home/hue"; join := fun a b => a +:+ "/" +:+ b |}.

Definition desk_lamp_query : gmap string JsValue :=
  <["lightId" := JStr "Desk Lamp"]> (<["room" := JStr "Office"]> ∅).

Definition desk_lamp_on : gmap string JsValue :=
  <["target" := JStr "Desk Lamp"]>
    (<["action" := JStr "on"]> (<["brightness" := JNum 50]> ∅)).

Definition relaxing_dynamic : gmap string JsValue :=
  <["name" := JStr "Relaxing"]> (<["mode" := JStr "dynamic"]> ∅).

Definition dim_and_too_warm : gmap string JsValue :=
  <["action" := JStr "dim"]> (<["temperature" := JNum 1000]> ∅).

Definition warmest : gmap string JsValue :=
  <["target" := JStr "Desk Lamp"]>
    (<["action" := JStr "on"]> (<["temperature" := JNum 500]> ∅)).

Definition slightly_cold : gmap string JsValue :=
  <["target" := JStr "Desk Lamp"]>
    (<["action" := JStr "on"]>
       (<["temperature" := JNum (decimal 1525 (-1))]> ∅)).

Definition red_and_bright : gmap string JsValue :=
  <["target" := JStr "Desk Lamp"]>
    (<["action" := JStr "on"]>
       (<["color" := JStr "red --brightness 100"]> ∅)).

Definition lamp_with_quotes : gmap string JsValue :=
  <["target" := JStr ("Lamp" +:+ dq +:+ " --brightness 7 " +:+ dq +:+ "x")]>
    (<["action" := JStr "on"]> ∅).

Definition nameless_light : gmap string JsValue :=
  <["target" := JStr ""]> (<["action" := JStr "on"]> ∅).

Definition plain_light : gmap string JsValue :=
  <["target" := JStr "Desk Lamp"]> (<["action" := JStr "on"]> ∅).

Definition colorless : gmap string JsValue :=
  <["color" := JStr ""]> plain_light.

Definition numeric_light_id : gmap string JsValue :=
  <["lightId" := JNum 5]> ∅.

Definition get_lights_tool : Tool.t :=
  Tool.mk "get-lights"
    "List all Hue lights or get details for a specific light"
    (InputSchema.mk
       [ ("lightId", string_property
            "Optional light ID or name to get specific light details");
         ("room", string_property "Optional room name to filter lights") ]
       []).

Definition movie_night : gmap string JsValue :=
  <["name" := JStr ("Movie " +:+ dq +:+ "night" +:+ dq)]> ∅.

Definition light_blue : gmap string JsValue :=
  <["color" := JStr "light blue"]> plain_light.

Definition with_scratch_key : gmap string JsValue :=
  <["transition" := JNum 4]> desk_lamp_on.

Definition light_zero : gmap string JsValue :=
  <["lightId" := JNum 0]> (<["room" := JStr "Office"]> ∅).

Definition scene_with_empty_room : gmap string JsValue :=
  <["room" := JStr ""]> relaxing_dynamic.

Definition fully_specified : gmap string JsValue :=
  <["color" := JStr "red"]>
    (<["brightness" := JNum 0]>
       (<["temperature" := JNum (decimal 4995 (-1))]> plain_light)).

Definition too_bright : gmap string JsValue :=
  <["brightness" := JNum (decimal 1005 (-1))]> plain_light.

Definition shouted_action : gmap string JsValue :=
  <["action" := JStr "ON"]> plain_light.

Definition relaxing_in_den : gmap string JsValue :=
  <["room" := JStr "Den"]> relaxing_dynamic.

(** * Properties *)

(** ** The handler monad *)

Lemma run_bind {A B} os (p : Prog A) (f : A -> Prog B) :
  run os (bind p f) =
  match run os p with
  | inl a => run os (f a)
  | inr e => inr e
  end.
Proof. induction p as [a|e|cmd k IH]; simpl; auto. Qed.

Lemma run_try_catch {A} os (p : Prog A) h :
  run os (try_catch p h) =
  match run os p with
  | inl a => inl a
  | inr e => run os (h e)
  end.
Proof. induction p as [a|e|cmd k IH]; simpl; auto. Qed.

Lemma built_command_bind {A B} (p : Prog A) (f : A -> Prog B) cmd :
  built_command p = Some cmd -> built_command (bind p f) = Some cmd.
Proof. destruct p; simpl; congruence. Qed.

Lemma built_command_try_catch {A} (p : Prog A) h cmd :
  built_command p = Some cmd -> built_command (try_catch p h) = Some cmd.
Proof. destruct p; simpl; congruence. Qed.

Lemma run_executeHueCommand host os command :
  run os (executeHueCommand host command) =
  execution_result (buildDockerCommand host command)
                   (os (buildDockerCommand host command)).
Proof.
  unfold executeHueCommand, execAsync. simpl.
  destruct (os _) as [code out err|msg]; simpl; [|reflexivity].
  destruct (code =? 0); simpl; [|reflexivity].
  destruct (String.eqb err ""); reflexivity.
Qed.

Lemma built_executeHueCommand host command :
  built_command (executeHueCommand host command) =
  Some (buildDockerCommand host command).
Proof. reflexivity. Qed.

Lemma execution_result_not_zod cmd o issues :
  execution_result cmd o <> inr (ZodError issues).
Proof.
  destruct o as [code out err|msg]; simpl; [|congruence].
  destruct (code =? 0); [|congruence].
  destruct (String.eqb err ""); congruence.
Qed.

(** ** Strings *)

Lemma append_assoc (s1 s2 s3 : string) :
  (s1 +:+ s2) +:+ s3 = s1 +:+ s2 +:+ s3.
Proof.
  induction s1 as [|c s1 IH]; [reflexivity|].
  change (String c ((s1 +:+ s2) +:+ s3) = String c (s1 +:+ s2 +:+ s3)).
  now rewrite IH.
Qed.

Lemma append_nil_r (s : string) : s +:+ "" = s.
Proof.
  induction s as [|c s IH]; [reflexivity|].
  change (String c (s +:+ "") = String c s). now rewrite IH.
Qed.

Lemma contains_here needle post : contains needle (needle +:+ post).
Proof. exists "", post. reflexivity. Qed.

Lemma contains_refl s : contains s s.
Proof. exists "", "". symmetry. apply append_nil_r. Qed.

Lemma contains_append_l needle a hay :
  contains needle hay -> contains needle (a +:+ hay).
Proof.
  intros (pre & post & ->). exists (a +:+ pre), post.
  now rewrite append_assoc.
Qed.

Lemma contains_append_r needle hay b :
  contains needle hay -> contains needle (hay +:+ b).
Proof.
  intros (pre & post & ->). exists pre, (post +:+ b).
  now rewrite !append_assoc.
Qed.

Lemma contains_concat sep x l :
  In x l -> contains x (String.concat sep l).
Proof.
  induction l as [|y l IH]; [intros []|].
  intros [->|Hin].
  - destruct l as [|z l]; simpl; [apply contains_refl|apply contains_here].
  - destruct l as [|z l]; [destruct Hin|].
    change (contains x (y +:+ sep +:+ String.concat sep (z :: l))).
    apply contains_append_l, contains_append_l, IH, Hin.
Qed.

Lemma prefix_iff p s :
  String.prefix p s = true <-> exists post, s = p +:+ post.
Proof.
  revert s. induction p as [|c p IH]; intros s; simpl.
  - split; [intros _; exists s; reflexivity|]. now destruct s.
  - destruct s as [|d s]; simpl.
    + split; [discriminate|]. intros (post & H). discriminate.
    + destruct (ascii_dec c d) as [->|Hne].
      * rewrite IH. split; intros (post & H); exists post.
        -- now rewrite H.
        -- now injection H.
      * split; [discriminate|]. intros (post & H). injection H. congruence.
Qed.

Lemma contains_occurrences needle hay :
  contains needle hay <-> occurrences needle hay <> 0%nat.
Proof.
  split.
  - intros (pre & post & ->). induction pre as [|c pre IH].
    + change ("" +:+ needle +:+ post) with (needle +:+ post).
      assert (String.prefix needle (needle +:+ post) = true) as H
        by (apply prefix_iff; eauto).
      destruct (needle +:+ post); cbn [occurrences]; rewrite H; lia.
    + change (String c pre +:+ needle +:+ post)
        with (String c (pre +:+ needle +:+ post)).
      cbn [occurrences]. lia.
  - induction hay as [|c hay IH]; cbn [occurrences].
    + destruct (String.prefix needle "") eqn:Hp; [|lia].
      intros _. apply prefix_iff in Hp as (post & ->). apply contains_here.
    + destruct (String.prefix needle (String c hay)) eqn:Hp.
      * intros _. apply prefix_iff in Hp as (post & ->). apply contains_here.
      * intros H. apply (contains_append_l _ (String c "")), IH. lia.
Qed.

Lemma append_cons c (s x : string) : String c s +:+ x = String c (s +:+ x).
Proof. reflexivity. Qed.

Lemma append_nil_l (x : string) : "" +:+ x = x.
Proof. reflexivity. Qed.

Lemma all_chars_impl (P Q : ascii -> bool) s :
  (forall c, P c = true -> Q c = true) ->
  all_chars P s = true -> all_chars Q s = true.
Proof.
  intros HPQ. induction s as [|c s IH]; [reflexivity|].
  cbn [all_chars]. rewrite !andb_true_iff. intros [Hc Hs]. auto.
Qed.

Lemma all_chars_append P s1 s2 :
  all_chars P (s1 +:+ s2) = all_chars P s1 && all_chars P s2.
Proof.
  induction s1 as [|c s1 IH]; [reflexivity|].
  rewrite append_cons. cbn [all_chars]. rewrite IH. apply andb_assoc.
Qed.

Lemma prefix_sep p x sep b :
  lacks sep p = true ->
  String.prefix p (x +:+ String sep b) = String.prefix p x.
Proof.
  revert x. induction p as [|c p IH]; intros x Hp.
  - now destruct x.
  - unfold lacks in Hp. cbn [all_chars] in Hp.
    apply andb_true_iff in Hp as [Hc Hp].
    apply negb_true_iff, Ascii.eqb_neq in Hc.
    destruct x as [|d x].
    + rewrite append_nil_l. cbn [String.prefix].
      destruct (ascii_dec c sep); [contradiction|reflexivity].
    + rewrite append_cons. cbn [String.prefix].
      destruct (ascii_dec c d); [|reflexivity]. apply IH, Hp.
Qed.

(** A needle cannot straddle a character it does not contain. *)
Lemma occurrences_sep p a sep b :
  lacks sep p = true ->
  occurrences p (a +:+ String sep b) =
  (occurrences p a + occurrences p b)%nat.
Proof.
  intros Hp. induction a as [|d a IH].
  - rewrite append_nil_l. cbn [occurrences].
    rewrite <- (prefix_sep p "" sep b Hp), append_nil_l. lia.
  - rewrite append_cons. cbn [occurrences].
    rewrite <- append_cons, (prefix_sep p _ sep b Hp), IH. lia.
Qed.

Lemma prefix_all_chars P p s :
  String.prefix p s = true -> all_chars P s = true -> all_chars P p = true.
Proof.
  revert s. induction p as [|c p IH]; intros s; [reflexivity|].
  destruct s as [|d s]; cbn [String.prefix all_chars]; [discriminate|].
  destruct (ascii_dec c d) as [->|]; [|discriminate].
  rewrite !andb_true_iff. intros Hp [Hd Hs]. eauto.
Qed.

Lemma occurrences_none P p s :
  all_chars P s = true -> all_chars P p = false -> occurrences p s = 0%nat.
Proof.
  intros Hs Hp. induction s as [|c s IH]; cbn [occurrences].
  - destruct (String.prefix p "") eqn:E; [|reflexivity].
    rewrite (prefix_all_chars P p "" E Hs) in Hp. discriminate.
  - destruct (String.prefix p (String c s)) eqn:E.
    + rewrite (prefix_all_chars P p _ E Hs) in Hp. discriminate.
    + cbn [all_chars] in Hs. apply andb_true_iff in Hs as [_ Hs].
      rewrite (IH Hs). reflexivity.
Qed.

Lemma string_of_uint_chars d :
  all_chars number_char (NilEmpty.string_of_uint d) = true.
Proof. induction d; cbn [NilEmpty.string_of_uint all_chars]; auto. Qed.

Lemma digits_of_chars n : all_chars number_char (digits_of n) = true.
Proof.
  unfold digits_of, NilZero.string_of_uint.
  destruct (N.to_uint n); try reflexivity; apply (string_of_uint_chars (_ _)).
Qed.

Lemma strip_trailing_zeros_chars P s :
  all_chars P s = true -> all_chars P (strip_trailing_zeros s) = true.
Proof.
  induction s as [|c s IH]; [reflexivity|].
  cbn [all_chars strip_trailing_zeros]. rewrite andb_true_iff.
  intros [Hc Hs]. specialize (IH Hs).
  destruct (strip_trailing_zeros s) as [|d kept].
  - destruct (Ascii.eqb c "0"); [reflexivity|].
    cbn [all_chars]. rewrite Hc. reflexivity.
  - change (P c && all_chars P (String d kept) = true).
    rewrite Hc, IH. reflexivity.
Qed.

Lemma take_chars_chars P n s :
  all_chars P s = true -> all_chars P (take_chars n s) = true.
Proof.
  revert s. induction n as [|n IH]; intros [|c s]; try reflexivity.
  cbn [all_chars take_chars]. rewrite !andb_true_iff. intros [Hc Hs]. auto.
Qed.

Lemma drop_chars_chars P n s :
  all_chars P s = true -> all_chars P (drop_chars n s) = true.
Proof.
  revert s. induction n as [|n IH]; intros [|c s]; try (intros H; exact H).
  cbn [all_chars drop_chars]. rewrite andb_true_iff. intros [Hc Hs]. auto.
Qed.

Lemma zeros_chars n : all_chars number_char (zeros n) = true.
Proof. induction n as [|n IH]; [reflexivity|]. cbn [zeros all_chars]. exact IH. Qed.

Lemma exponent_text_chars e : all_chars number_char (exponent_text e) = true.
Proof.
  unfold exponent_text. rewrite !all_chars_append, digits_of_chars.
  destruct (e <? 0); reflexivity.
Qed.

Lemma format_digits_chars s n :
  all_chars number_char s = true ->
  all_chars number_char (format_digits s n) = true.
Proof.
  intros Hs. unfold format_digits.
  repeat match goal with
         | |- context [if ?c then _ else _] => destruct c
         end;
    try destruct (drop_chars 1 s) eqn:Hd;
    rewrite ?all_chars_append, ?Hs, ?zeros_chars, ?exponent_text_chars,
      ?(take_chars_chars _ _ _ Hs), ?(drop_chars_chars _ _ _ Hs);
    try reflexivity.
  rewrite <- Hd, (drop_chars_chars _ _ _ Hs). reflexivity.
Qed.

Lemma number_to_string_chars x :
  all_chars number_char (number_to_string x) = true.
Proof.
  destruct x as [negative mantissa exponent|negative];
    [|destruct negative; reflexivity].
  unfold number_to_string.
  pose proof (strip_trailing_zeros_chars number_char _
                (digits_of_chars mantissa)) as Hs.
  destruct (strip_trailing_zeros (digits_of mantissa)) as [|c kept];
    [reflexivity|].
  rewrite all_chars_append, (format_digits_chars _ _ Hs).
  destruct negative; reflexivity.
Qed.

Lemma not_empty_append_l a b :
  String.eqb a "" = false -> String.eqb (a +:+ b) "" = false.
Proof. destruct a; [discriminate|reflexivity]. Qed.

Lemma not_empty_append_r a b :
  String.eqb b "" = false -> String.eqb (a +:+ b) "" = false.
Proof. destruct a; [intros H; exact H|reflexivity]. Qed.

Lemma format_digits_not_empty s n :
  String.eqb s "" = false -> String.eqb (format_digits s n) "" = false.
Proof.
  intros Hs. unfold format_digits.
  repeat match goal with
         | |- context [if ?c then _ else _] => destruct c
         end;
    try destruct (drop_chars 1 s);
    first [ apply not_empty_append_l, Hs
          | apply not_empty_append_r; reflexivity
          | reflexivity ].
Qed.

Lemma number_not_empty x : String.eqb (number_to_string x) "" = false.
Proof.
  destruct x as [negative mantissa exponent|negative];
    [|destruct negative; reflexivity].
  unfold number_to_string.
  destruct (strip_trailing_zeros (digits_of mantissa)) as [|c kept];
    [reflexivity|].
  apply not_empty_append_r, format_digits_not_empty. reflexivity.
Qed.

Lemma occurrences_append_flag p x flag :
  lacks " " p = true ->
  p <> "" ->
  flag = "" \/ (exists rest, flag = String " " rest) ->
  occurrences p (x +:+ flag) =
  (occurrences p x + flag_occurrences p flag)%nat.
Proof.
  intros Hp Hne [->|(rest & ->)].
  - rewrite append_nil_r. cbn [flag_occurrences]. lia.
  - apply occurrences_sep, Hp.
Qed.

Lemma number_no_brightness z :
  occurrences "--brightness" (number_to_string z) = 0%nat.
Proof.
  apply (occurrences_none number_char);
    [apply number_to_string_chars|reflexivity].
Qed.

(** ** zod *)

Lemma strip_lookup shape data key :
  strip shape data !! key =
  if in_shape key shape then data !! key else None.
Proof.
  induction shape as [|[k t] shape IH]; simpl.
  - apply lookup_empty.
  - destruct (String.eqb_spec k key) as [->|Hne]; simpl.
    + destruct (data !! key) as [v|] eqn:Hk.
      * apply lookup_insert_eq.
      * rewrite IH. destruct (in_shape key shape); auto.
    + destruct (data !! k) as [v|] eqn:Hk; [|exact IH].
      rewrite lookup_insert_ne by exact Hne. exact IH.
Qed.

Lemma type_issues_string v :
  type_issues z_string v = [] <-> exists s, v = Some (JStr s).
Proof.
  split.
  - destruct v as [[| | | s | |]|]; simpl; try discriminate. eauto.
  - intros [s ->]. reflexivity.
Qed.

Lemma type_issues_enum values v :
  type_issues (z_enum values) v = [] <->
  exists s, v = Some (JStr s) /\ In s values.
Proof.
  split.
  - destruct v as [[| | | s | |]|]; simpl; try discriminate.
    destruct (existsb (String.eqb s) values) eqn:He; [|discriminate].
    intros _. exists s. split; [reflexivity|].
    apply existsb_exists in He as (x & Hin & Hx).
    apply String.eqb_eq in Hx. subst x. exact Hin.
  - intros (s & -> & Hin). simpl.
    replace (existsb (String.eqb s) values) with true; [reflexivity|].
    symmetry. apply existsb_exists. exists s. split; [exact Hin|].
    apply String.eqb_refl.
Qed.

Lemma type_issues_range lo hi v :
  type_issues (z_max hi (z_min lo z_number)) v = [] <->
  exists n, v = Some (JNum n) /\ within lo hi n.
Proof.
  unfold within. split.
  - destruct v as [[| | n | | |]|]; simpl; try discriminate.
    destruct (number_lt n lo) eqn:Hlo; simpl; [discriminate|].
    destruct (number_gt n hi) eqn:Hhi; simpl; [discriminate|].
    intros _. exists n. auto.
  - intros (n & -> & Hlo & Hhi). simpl. rewrite Hlo, Hhi. reflexivity.
Qed.

(** The comparisons are those of the values, and a number that is not
    below a positive bound is not zero. *)
Lemma number_lt_value negative mantissa exponent bound :
  number_lt (Finite negative mantissa exponent) bound = true <->
  (finite_value negative mantissa exponent < inject_Z bound)%Q.
Proof.
  cbn [number_lt]. rewrite negb_true_iff. split; intros H.
  - apply Qnot_le_lt. intros Hle. apply Qle_bool_iff in Hle. congruence.
  - destruct (Qle_bool _ _) eqn:E; [|reflexivity].
    apply Qle_bool_iff in E. exfalso. apply (Qlt_not_le _ _ H E).
Qed.

Lemma number_gt_value negative mantissa exponent bound :
  number_gt (Finite negative mantissa exponent) bound = true <->
  (inject_Z bound < finite_value negative mantissa exponent)%Q.
Proof.
  cbn [number_gt]. rewrite negb_true_iff. split; intros H.
  - apply Qnot_le_lt. intros Hle. apply Qle_bool_iff in Hle. congruence.
  - destruct (Qle_bool _ _) eqn:E; [|reflexivity].
    apply Qle_bool_iff in E. exfalso. apply (Qlt_not_le _ _ H E).
Qed.

Lemma above_zero_truthy lo n :
  0 < lo -> number_lt n lo = false -> truthy (Some (JNum n)) = true.
Proof.
  intros Hlo.
  destruct n as [negative [|m] exponent|[|]]; cbn [truthy number_lt];
    try reflexivity; try discriminate.
  intros H. exfalso. apply negb_false_iff, Qle_bool_iff in H.
  unfold finite_value, Qle in H.
  destruct negative, (0 <=? exponent); cbn in H; lia.
Qed.

Lemma type_issues_convertible t v :
  type_issues t v = [] -> convertible v = true.
Proof.
  induction t as [|checks|values|inner IH];
    destruct v as [[| | | | |]|]; simpl; try discriminate; auto.
Qed.

Lemma type_issues_optional t v :
  type_issues (z_optional t) v = [] <-> v = None \/ type_issues t v = [].
Proof.
  destruct v as [x|]; simpl; [|tauto].
  split; [auto|]. intros [Hx|Hx]; [discriminate|exact Hx].
Qed.

Lemma key_issues_nil data key t :
  key_issues data (key, t) = [] <-> type_issues t (data !! key) = [].
Proof.
  unfold key_issues. simpl. split.
  - apply map_eq_nil.
  - intros ->. reflexivity.
Qed.

Lemma safe_parse_inl schema args params :
  safe_parse schema args = inl params <->
  exists data, args = Some data
    /\ object_issues (shape schema) data = []
    /\ params = strip (shape schema) data.
Proof.
  unfold safe_parse. destruct args as [data|].
  - destruct (object_issues (shape schema) data) eqn:Hi; split.
    + intros [= <-]. eauto.
    + intros (d & [= <-] & _ & ->). reflexivity.
    + discriminate.
    + intros (d & [= <-] & Hd & _). congruence.
  - split; [discriminate|]. intros (d & Hd & _). discriminate.
Qed.

Lemma light_issues_nil data :
  object_issues (shape LightActionSchema) data = [] <->
  (exists t, data !! "target" = Some (JStr t))
  /\ (exists a, data !! "action" = Some (JStr a) /\ In a ["on"; "off"])
  /\ (data !! "brightness" = None
      \/ exists b, data !! "brightness" = Some (JNum b) /\ within 0 100 b)
  /\ (data !! "color" = None \/ exists c, data !! "color" = Some (JStr c))
  /\ (data !! "temperature" = None
      \/ exists t, data !! "temperature" = Some (JNum t) /\ within 153 500 t).
Proof.
  unfold object_issues, LightActionSchema, z_object.
  cbn [shape flat_map].
  rewrite !app_nil, !key_issues_nil, !type_issues_optional,
    !type_issues_range, type_issues_enum, !type_issues_string.
  tauto.
Qed.

Lemma scene_issues_nil data :
  object_issues (shape SceneActionSchema) data = [] <->
  (exists n, data !! "name" = Some (JStr n))
  /\ (data !! "room" = None \/ exists r, data !! "room" = Some (JStr r))
  /\ (data !! "mode" = None
      \/ exists m, data !! "mode" = Some (JStr m)
                   /\ In m ["active"; "dynamic"; "static"]).
Proof.
  unfold object_issues, SceneActionSchema, z_object.
  cbn [shape flat_map].
  rewrite !app_nil, !key_issues_nil, !type_issues_optional,
    type_issues_enum, !type_issues_string.
  tauto.
Qed.

(** ** What a successful parse hands to the handler *)

Lemma light_parsed data params :
  safe_parse LightActionSchema (Some data) = inl params ->
  object_issues (shape LightActionSchema) data = []
  /\ params !! "target" = data !! "target"
  /\ params !! "action" = data !! "action"
  /\ params !! "brightness" = data !! "brightness"
  /\ params !! "color" = data !! "color"
  /\ params !! "temperature" = data !! "temperature".
Proof.
  intros H. apply safe_parse_inl in H as (d & [= <-] & Hi & ->).
  split; [exact Hi|]. rewrite !strip_lookup. repeat split; reflexivity.
Qed.

Lemma scene_parsed data params :
  safe_parse SceneActionSchema (Some data) = inl params ->
  object_issues (shape SceneActionSchema) data = []
  /\ params !! "name" = data !! "name"
  /\ params !! "room" = data !! "room"
  /\ params !! "mode" = data !! "mode".
Proof.
  intros H. apply safe_parse_inl in H as (d & [= <-] & Hi & ->).
  split; [exact Hi|]. rewrite !strip_lookup. repeat split; reflexivity.
Qed.

Lemma safe_parse_issue schema data issue :
  In issue (object_issues (shape schema) data) ->
  safe_parse schema (Some data) = inr (object_issues (shape schema) data).
Proof.
  unfold safe_parse. destruct (object_issues (shape schema) data).
  - intros [].
  - reflexivity.
Qed.

Lemma key_issue_in shape data key t reason :
  In (key, t) shape ->
  In reason (type_issues t (data !! key)) ->
  In {| path := [key]; message := reason |} (object_issues shape data).
Proof.
  intros Hk Hr. apply in_flat_map. exists (key, t). split; [exact Hk|].
  unfold key_issues. cbn [fst snd].
  apply (in_map (fun m => {| path := [key]; message := m |})), Hr.
Qed.

Lemma issue_in_message issue issues :
  In issue issues ->
  contains (String.concat "." (path issue) +:+ ": " +:+ message issue)
           (invalid_arguments issues).
Proof.
  intros H. unfold invalid_arguments. apply contains_append_l.
  apply contains_concat.
  apply (in_map (fun e => String.concat "." (path e) +:+ ": " +:+ message e)),
    H.
Qed.

Lemma key_issues_path data key t issue :
  In issue (key_issues data (key, t)) -> path issue = [key].
Proof.
  unfold key_issues. cbn [fst snd]. intros H.
  apply in_map_iff in H as (m & <- & _). reflexivity.
Qed.

(** ** The dispatcher *)

Lemma interpolate_convertible v :
  convertible v = true -> interpolate v = Ret (template v).
Proof.
  destruct v as [x|]; [|reflexivity]. unfold convertible, interpolate, template.
  destruct (to_string x); [reflexivity|discriminate].
Qed.

Lemma interpolate_throws v :
  convertible v = false -> interpolate v = Throw type_error.
Proof.
  destruct v as [x|]; [|discriminate]. unfold convertible, interpolate.
  destruct (to_string x); [discriminate|reflexivity].
Qed.

Lemma valid_convertible shape data key :
  object_issues shape data = [] ->
  convertible (strip shape data !! key) = true.
Proof.
  intros H. rewrite strip_lookup.
  induction shape as [|[k t] shape IH]; [reflexivity|].
  unfold object_issues in H. cbn [flat_map] in H.
  apply app_eq_nil in H as [Hk Hrest].
  change (in_shape key ((k, t) :: shape))
    with (String.eqb k key || in_shape key shape).
  destruct (String.eqb_spec k key) as [->|Hne]; cbn [orb].
  - apply key_issues_nil in Hk. apply (type_issues_convertible t), Hk.
  - apply IH, Hrest.
Qed.

Lemma parsed_convertible schema args params key :
  safe_parse schema args = inl params -> convertible (params !! key) = true.
Proof.
  intros H. apply safe_parse_inl in H as (data & _ & Hv & ->).
  apply valid_convertible, Hv.
Qed.

(** The handlers in closed form: a bag that passed validation holds
    strings and numbers only, so no template of a write tool throws; a
    read tool throws exactly when a value it appends cannot be
    converted. *)
Lemma write_handler_parsed host w args params :
  safe_parse (write_schema w) args = inl params ->
  match w with
  | ControlLight => control_light host args
  | ControlRoom => control_room host args
  | ActivateScene => activate_scene host args
  end =
  bind (executeHueCommand host (write_command w params))
       (fun _ => Ret (text_response (write_confirmation w params))).
Proof.
  intros H.
  destruct w; cbn [write_schema] in H;
    unfold control_light, control_room, activate_scene, parse;
    rewrite H; unfold mbind, mret, Prog_bind, Prog_ret; cbn [bind];
    rewrite !interpolate_convertible
      by (eapply parsed_convertible; exact H);
    cbn [bind write_command write_confirmation];
    unfold set_command, set_confirmation, scene_command, scene_confirmation;
    repeat match goal with
           | |- context [defined (params !! ?k)] =>
               destruct (defined (params !! k))
           | |- context [truthy (params !! ?k)] =>
               destruct (truthy (params !! k))
           end;
    reflexivity.
Qed.

Lemma appends_cases v :
  appends v = true /\
  (if truthy v then interpolate v = Ret (template v) else True)
  \/ appends v = false /\ truthy v = true /\ interpolate v = Throw type_error.
Proof.
  unfold appends. destruct (truthy v); cbn [negb orb]; [|left; auto].
  destruct (convertible v) eqn:Hc.
  - left. split; [reflexivity|]. apply interpolate_convertible, Hc.
  - right. repeat split. apply interpolate_throws, Hc.
Qed.

Lemma read_handler_cases host r args :
  match r with
  | GetLights => get_lights host args
  | GetRooms => get_rooms host args
  | GetScenes => get_scenes host args
  end =
  if read_converts r args
  then bind (executeHueCommand host (read_command r args))
            (fun result => Ret (text_response result))
  else Throw type_error.
Proof.
  destruct r; unfold get_lights, get_rooms, get_scenes, read_converts,
    read_command; unfold mbind, mret, Prog_bind, Prog_ret;
    repeat match goal with
           | |- context [appends ?v] =>
               let Ht := fresh "Ht" in
               let Hi := fresh "Hi" in
               destruct (appends_cases v) as [[-> Hi]|(-> & Ht & Hi)];
               [destruct (truthy v); [rewrite Hi|]
               |rewrite Ht, Hi]
           end; reflexivity.
Qed.

Ltac enter_call :=
  unfold call_tool, write_request, read_request;
  cbn [name arguments write_name read_name];
  cbn [String.eqb Ascii.eqb Bool.eqb].

Lemma call_write_invalid host w args issues :
  safe_parse (write_schema w) args = inr issues ->
  call_tool host (write_request w args) =
  Throw (Error (invalid_arguments issues)).
Proof.
  intros H. destruct w; enter_call;
    unfold control_light, control_room, activate_scene, parse;
    cbn [write_schema] in H; rewrite H; reflexivity.
Qed.

Lemma call_write_built host w args params :
  safe_parse (write_schema w) args = inl params ->
  built_command (call_tool host (write_request w args)) =
  Some (buildDockerCommand host (write_command w params)).
Proof.
  intros H. pose proof (write_handler_parsed host w args params H) as Hh.
  destruct w; enter_call; rewrite Hh; reflexivity.
Qed.

Lemma call_write_run host os w args params :
  safe_parse (write_schema w) args = inl params ->
  run os (call_tool host (write_request w args)) =
  match execution_result
          (buildDockerCommand host (write_command w params))
          (os (buildDockerCommand host (write_command w params))) with
  | inl _ => inl (text_response (write_confirmation w params))
  | inr e => inr e
  end.
Proof.
  intros H. pose proof (write_handler_parsed host w args params H) as Hh.
  pose proof (execution_result_not_zod
                (buildDockerCommand host (write_command w params))
                (os (buildDockerCommand host (write_command w params))))
    as Hz.
  destruct w; enter_call; rewrite Hh;
    rewrite run_try_catch, run_bind, run_executeHueCommand;
    (destruct (execution_result _ _) as [out|[issues|msg]];
     [reflexivity | exfalso; eapply Hz; reflexivity | reflexivity]).
Qed.

Lemma call_read_built host r args :
  read_converts r args = true ->
  built_command (call_tool host (read_request r args)) =
  Some (buildDockerCommand host (read_command r args)).
Proof.
  intros Hc. pose proof (read_handler_cases host r args) as Hh.
  rewrite Hc in Hh. destruct r; enter_call; rewrite Hh; reflexivity.
Qed.

Lemma call_read_run host os r args :
  read_converts r args = true ->
  run os (call_tool host (read_request r args)) =
  match execution_result
          (buildDockerCommand host (read_command r args))
          (os (buildDockerCommand host (read_command r args))) with
  | inl out => inl (text_response out)
  | inr e => inr e
  end.
Proof.
  intros Hc. pose proof (read_handler_cases host r args) as Hh.
  rewrite Hc in Hh.
  pose proof (execution_result_not_zod
                (buildDockerCommand host (read_command r args))
                (os (buildDockerCommand host (read_command r args))))
    as Hz.
  destruct r; enter_call; rewrite Hh;
    rewrite run_try_catch, run_bind, run_executeHueCommand;
    (destruct (execution_result _ _) as [out|[issues|msg]];
     [reflexivity | exfalso; eapply Hz; reflexivity | reflexivity]).
Qed.

Lemma call_read_throws host r args :
  read_converts r args = false ->
  call_tool host (read_request r args) = Throw type_error.
Proof.
  intros Hc. pose proof (read_handler_cases host r args) as Hh.
  rewrite Hc in Hh. destruct r; enter_call; rewrite Hh; reflexivity.
Qed.

Lemma read_built_inv host r args cmd :
  built_command (call_tool host (read_request r args)) = Some cmd ->
  read_converts r args = true
  /\ cmd = buildDockerCommand host (read_command r args).
Proof.
  intros H. destruct (read_converts r args) eqn:Hc.
  - rewrite (call_read_built _ _ _ Hc) in H. split; congruence.
  - rewrite (call_read_throws _ _ _ Hc) in H. discriminate.
Qed.

(** Every request names a write tool, a read tool, or no tool at all. *)
Lemma call_tool_cases host request :
  (exists w, request = write_request w (arguments request))
  \/ (exists r, request = read_request r (arguments request))
  \/ call_tool host request =
     Throw (Error ("Unknown tool: " +:+ name request)).
Proof.
  destruct request as [n args]. cbn [name arguments].
  destruct (String.eqb_spec n "get-lights") as [->|H1];
    [right; left; exists GetLights; reflexivity|].
  destruct (String.eqb_spec n "control-light") as [->|H2];
    [left; exists ControlLight; reflexivity|].
  destruct (String.eqb_spec n "get-rooms") as [->|H3];
    [right; left; exists GetRooms; reflexivity|].
  destruct (String.eqb_spec n "control-room") as [->|H4];
    [left; exists ControlRoom; reflexivity|].
  destruct (String.eqb_spec n "get-scenes") as [->|H5];
    [right; left; exists GetScenes; reflexivity|].
  destruct (String.eqb_spec n "activate-scene") as [->|H6];
    [left; exists ActivateScene; reflexivity|].
  right; right. unfold call_tool. cbn [name arguments].
  apply String.eqb_neq in H1, H2, H3, H4, H5, H6.
  rewrite H1, H2, H3, H4, H5, H6. reflexivity.
Qed.

Lemma write_built_inv host w args cmd :
  built_command (call_tool host (write_request w args)) = Some cmd ->
  exists params,
    safe_parse (write_schema w) args = inl params
    /\ cmd = buildDockerCommand host (write_command w params).
Proof.
  intros H. destruct (safe_parse (write_schema w) args) as [params|issues] eqn:Hp.
  - exists params. split; [reflexivity|].
    rewrite (call_write_built _ _ _ _ Hp) in H. congruence.
  - rewrite (call_write_invalid _ _ _ _ Hp) in H. discriminate.
Qed.

Lemma violation_reported host w data key t reason :
  In (key, t) (shape (write_schema w)) ->
  In reason (type_issues t (data !! key)) ->
  call_tool host (write_request w (Some data)) =
    Throw (Error (invalid_arguments
                    (object_issues (shape (write_schema w)) data)))
  /\ In {| path := [key]; message := reason |}
        (object_issues (shape (write_schema w)) data)
  /\ contains (key +:+ ": " +:+ reason)
       (invalid_arguments (object_issues (shape (write_schema w)) data)).
Proof.
  intros Hk Hr.
  pose proof (key_issue_in _ data _ _ _ Hk Hr) as Hin.
  split; [|split; [exact Hin|]].
  - apply call_write_invalid. eapply safe_parse_issue, Hin.
  - apply (issue_in_message _ _ Hin).
Qed.

Lemma light_room_shape w :
  w = ControlLight \/ w = ControlRoom ->
  shape (write_schema w) = shape LightActionSchema.
Proof. intros [-> | ->]; reflexivity. Qed.

Lemma write_valid_built host w data :
  object_issues (shape (write_schema w)) data = [] ->
  built_command (call_tool host (write_request w (Some data))) =
  Some (buildDockerCommand host
          (write_command w (strip (shape (write_schema w)) data))).
Proof.
  intros H. apply call_write_built. unfold safe_parse. rewrite H. reflexivity.
Qed.

Lemma set_command_flags kind params :
  set_command kind params =
  set_base kind params +:+ brightness_flag params +:+ color_flag params
    +:+ temperature_flag params.
Proof.
  unfold set_command, set_base, brightness_flag, color_flag, temperature_flag.
  destruct (defined (params !! "brightness")),
    (truthy (params !! "color")), (truthy (params !! "temperature"));
    rewrite ?append_assoc, ?append_nil_r; reflexivity.
Qed.

(** The command of a bag that passed validation, by the bag's own fields. *)
Lemma light_room_command host w data :
  w = ControlLight \/ w = ControlRoom ->
  object_issues (shape (write_schema w)) data = [] ->
  built_command (call_tool host (write_request w (Some data))) =
  Some (buildDockerCommand host
          (set_base (kind_of w) data
             +:+ brightness_flag data +:+ color_flag data
             +:+ temperature_flag data)).
Proof.
  intros Hw Hv. rewrite (write_valid_built host w data Hv).
  do 2 f_equal.
  destruct Hw as [-> | ->]; cbn [write_command write_schema kind_of];
    rewrite set_command_flags;
    unfold set_base, brightness_flag, color_flag, temperature_flag;
    rewrite !strip_lookup; reflexivity.
Qed.

Lemma light_room_run host os w data data' :
  w = ControlLight \/ w = ControlRoom ->
  object_issues (shape (write_schema w)) data = [] ->
  object_issues (shape (write_schema w)) data' = [] ->
  data !! "target" = data' !! "target" ->
  data !! "action" = data' !! "action" ->
  built_command (call_tool host (write_request w (Some data))) =
  built_command (call_tool host (write_request w (Some data'))) ->
  run os (call_tool host (write_request w (Some data))) =
  run os (call_tool host (write_request w (Some data'))).
Proof.
  intros Hw Hv Hv' Ht Ha Hb.
  rewrite (write_valid_built host w data Hv) in Hb.
  rewrite (write_valid_built host w data' Hv') in Hb.
  assert (buildDockerCommand host
            (write_command w (strip (shape (write_schema w)) data)) =
          buildDockerCommand host
            (write_command w (strip (shape (write_schema w)) data'))) as Hc
    by congruence.
  rewrite (call_write_run host os w (Some data)
             (strip (shape (write_schema w)) data)),
    (call_write_run host os w (Some data')
             (strip (shape (write_schema w)) data'));
    try (unfold safe_parse; rewrite ?Hv, ?Hv'; reflexivity).
  rewrite Hc.
  replace (write_confirmation w (strip (shape (write_schema w)) data))
    with (write_confirmation w (strip (shape (write_schema w)) data'));
    [reflexivity|].
  destruct Hw as [-> | ->]; cbn [write_confirmation write_schema];
    unfold set_confirmation; rewrite !strip_lookup; cbn [in_shape existsb];
    cbn; rewrite Ht, Ha; reflexivity.
Qed.

(** ** Bags that stay valid *)

Ltac simpl_lookups :=
  rewrite ?lookup_insert_eq, ?lookup_delete_eq;
  rewrite ?lookup_insert_ne by discriminate;
  rewrite ?lookup_delete_ne by discriminate.

Ltac light_valid H :=
  apply light_issues_nil; apply light_issues_nil in H;
  simpl_lookups;
  destruct H as (? & ? & ? & ? & ?); repeat split; eauto.

Ltac scene_valid H :=
  apply scene_issues_nil; apply scene_issues_nil in H;
  simpl_lookups;
  destruct H as (? & ? & ?); repeat split; eauto.

Lemma name_key_in_shape w : In (name_key w, z_string) (shape (write_schema w)).
Proof. destruct w; cbn; tauto. Qed.

Lemma valid_with_empty_name w data :
  object_issues (shape (write_schema w)) data = [] ->
  object_issues (shape (write_schema w)) (<[name_key w := JStr ""]> data) = [].
Proof.
  intros H. destruct w; cbn [write_schema name_key] in *;
    [light_valid H | light_valid H | scene_valid H].
Qed.

Lemma valid_with_empty_color w data :
  w = ControlLight \/ w = ControlRoom ->
  object_issues (shape (write_schema w)) data = [] ->
  object_issues (shape (write_schema w)) (<["color" := JStr ""]> data) = [].
Proof.
  intros Hw H. rewrite (light_room_shape w Hw) in *. light_valid H.
Qed.

Lemma not_a_string_issue v :
  (forall s, v <> JStr s) ->
  type_issues z_string (Some v) =
  ["Expected string, received " +:+ parsed_type (Some v)].
Proof. intros H. destruct v; try reflexivity. elim (H s). reflexivity. Qed.

Lemma valid_with_brightness w data v :
  w = ControlLight \/ w = ControlRoom ->
  within 0 100 v ->
  object_issues (shape (write_schema w)) data = [] ->
  object_issues (shape (write_schema w)) (<["brightness" := JNum v]> data)
  = [].
Proof.
  intros Hw Hr H. rewrite (light_room_shape w Hw) in *. light_valid H.
Qed.

Lemma valid_without w key data :
  w = ControlLight \/ w = ControlRoom ->
  key = "brightness" \/ key = "color" ->
  object_issues (shape (write_schema w)) data = [] ->
  object_issues (shape (write_schema w)) (delete key data) = [].
Proof.
  intros Hw [-> | ->] H; rewrite (light_room_shape w Hw) in *; light_valid H.
Qed.

Ltac flags_by_lookup :=
  unfold set_base, brightness_flag, color_flag, temperature_flag, color_text;
  simpl_lookups; reflexivity.

(** ** Counting a flag in a command *)

Ltac count_literals :=
  repeat match goal with
         | |- context [occurrences ?p ?s] =>
             let v := eval vm_compute in (occurrences p s) in
             match v with
             | O => change (occurrences p s) with v
             | S O => change (occurrences p s) with v
             end
         end.

Lemma brightness_count kind data :
  kind = "light" \/ kind = "room" ->
  object_issues (shape LightActionSchema) data = [] ->
  occurrences "--brightness"
    (set_base kind data +:+ brightness_flag data +:+ color_flag data
       +:+ temperature_flag data) =
  ((if defined (data !! "brightness") then 1 else 0)
   + occurrences "--brightness" (template (data !! "target"))
   + occurrences "--brightness" (color_text data))%nat.
Proof.
  intros Hkind Hv.
  apply light_issues_nil in Hv
    as ((t & Ht) & (a & Ha & Hin) & Hb & Hc & Htemp).
  rewrite <- !append_assoc.
  rewrite !occurrences_append_flag; try reflexivity; try discriminate.
  - assert (occurrences "--brightness" (set_base kind data) =
            occurrences "--brightness" t) as ->.
    { unfold set_base. rewrite Ht, Ha. cbn [template to_string].
      change ("set " +:+ kind +:+ " " +:+ dq +:+ t +:+ dq +:+ " --" +:+ a)
        with ("set" +:+ String " " (kind +:+ String " "
                ("" +:+ String (ascii_of_nat 34)
                   (t +:+ String (ascii_of_nat 34)
                      ("" +:+ String " " ("--" +:+ a)))))).
      rewrite !occurrences_sep by reflexivity.
      destruct Hkind as [-> | ->];
        destruct Hin as [<-|[<-|[]]]; count_literals; lia. }
    rewrite Ht. cbn [template to_string].
    assert (flag_occurrences "--brightness" (brightness_flag data) =
            if defined (data !! "brightness") then 1%nat else 0%nat) as ->.
    { unfold brightness_flag.
      destruct Hb as [-> | (b & -> & _)]; cbn [defined]; [reflexivity|].
      cbn [template to_string].
      change (" --brightness " +:+ number_to_string b)
        with (String " " ("--brightness" +:+ String " " (number_to_string b))).
      cbn [flag_occurrences]. rewrite occurrences_sep by reflexivity.
      rewrite number_no_brightness. reflexivity. }
    assert (flag_occurrences "--brightness" (color_flag data) =
            occurrences "--brightness" (color_text data)) as ->.
    { unfold color_flag, color_text.
      destruct Hc as [-> | (c & ->)]; cbn [truthy]; [reflexivity|].
      destruct (String.eqb_spec c "") as [-> | Hne]; [reflexivity|].
      cbn [negb template to_string].
      change (" --color " +:+ c)
        with (String " " ("--color" +:+ String " " c)).
      cbn [flag_occurrences]. rewrite occurrences_sep by reflexivity.
      reflexivity. }
    assert (flag_occurrences "--brightness" (temperature_flag data) = 0%nat)
      as ->.
    { unfold temperature_flag.
      destruct Htemp as [-> | (k & -> & _)]; [reflexivity|].
      destruct (truthy (Some (JNum k))); [|reflexivity].
      cbn [template to_string].
      change (" --temperature " +:+ number_to_string k)
        with (String " " ("--temperature" +:+ String " " (number_to_string k))).
      cbn [flag_occurrences]. rewrite occurrences_sep by reflexivity.
      rewrite number_no_brightness. reflexivity. }
    lia.
  - unfold brightness_flag. destruct (defined (data !! "brightness"));
      [right; eexists; reflexivity | left; reflexivity].
  - unfold color_flag. destruct (truthy (data !! "color"));
      [right; eexists; reflexivity | left; reflexivity].
  - unfold temperature_flag. destruct (truthy (data !! "temperature"));
      [right; eexists; reflexivity | left; reflexivity].
Qed.

(** ** The advertised schemas against validation *)

Lemma string_property_ok data key d :
  property_ok data (key, string_property d) = true <->
  data !! key = None \/ exists s, data !! key = Some (JStr s).
Proof.
  unfold property_ok. cbn [fst snd].
  destruct (data !! key) as [[]|]; cbn; split; intros H;
    try discriminate; eauto;
    destruct H as [H|(s & H)]; discriminate.
Qed.

Lemma enum_property_ok data key values d :
  property_ok data (key, enum_property values d) = true <->
  data !! key = None
  \/ exists s, data !! key = Some (JStr s) /\ In s values.
Proof.
  unfold property_ok. cbn [fst snd].
  destruct (data !! key) as [[| | |s| |]|]; cbn; split; intros H;
    try discriminate; eauto;
    try (destruct H as [H|(x & H & _)]; discriminate).
  - right. exists s. split; [reflexivity|].
    apply existsb_exists in H as (x & Hin & Hx).
    apply String.eqb_eq in Hx. subst x. exact Hin.
  - destruct H as [H|(x & [= <-] & Hin)]; [discriminate|].
    apply existsb_exists. exists s. split; [exact Hin|apply String.eqb_refl].
Qed.

Lemma number_property_ok data key lo hi d :
  property_ok data (key, number_property lo hi d) = true <->
  data !! key = None
  \/ exists n, data !! key = Some (JNum n) /\ within lo hi n.
Proof.
  unfold property_ok, within. cbn [fst snd].
  destruct (data !! key) as [[| |n| | |]|]; cbn; split; intros H;
    try discriminate; eauto;
    try (destruct H as [H|(x & H & _)]; discriminate).
  - right. exists n. split; [reflexivity|].
    apply andb_true_iff in H as [H1 H2].
    apply negb_true_iff in H1, H2. auto.
  - destruct H as [H|(x & [= <-] & H1 & H2)]; [discriminate|].
    rewrite H1, H2. reflexivity.
Qed.

Lemma defined_true (v : option JsValue) :
  defined v = true <-> exists x, v = Some x.
Proof.
  destruct v; cbn; split; eauto; try discriminate.
  intros (x & H). discriminate.
Qed.

Lemma light_conforms d1 d2 d3 d4 d5 data :
  conforms
    (InputSchema.mk
       [ ("target", string_property d1);
         ("action", enum_property ["on"; "off"] d2);
         ("brightness", number_property 0 100 d3);
         ("color", string_property d4);
         ("temperature", number_property 153 500 d5) ]
       ["target"; "action"]) data = true <->
  object_issues (shape LightActionSchema) data = [].
Proof.
  unfold conforms. cbn [InputSchema.properties InputSchema.required forallb].
  rewrite !andb_true_iff, !string_property_ok, enum_property_ok,
    !number_property_ok, !defined_true, light_issues_nil.
  split.
  - intros ((Ht & Ha & Hb & Hc & Hk & _) & (xt & Hxt) & (xa & Hxa) & _).
    repeat split; try assumption.
    + destruct Ht as [Ht|Ht]; [congruence|exact Ht].
    + destruct Ha as [Ha|Ha]; [congruence|exact Ha].
  - intros ((t & Ht) & (a & Ha & Hin) & Hb & Hc & Hk).
    repeat split; eauto.
Qed.

Lemma scene_conforms d1 d2 d3 data :
  conforms
    (InputSchema.mk
       [ ("name", string_property d1);
         ("room", string_property d2);
         ("mode", enum_property ["active"; "dynamic"; "static"] d3) ]
       ["name"]) data = true <->
  object_issues (shape SceneActionSchema) data = [].
Proof.
  unfold conforms. cbn [InputSchema.properties InputSchema.required forallb].
  rewrite !andb_true_iff, !string_property_ok, enum_property_ok,
    !defined_true, scene_issues_nil.
  split.
  - intros ((Hn & Hr & Hm & _) & (xn & Hxn) & _).
    repeat split; try assumption.
    destruct Hn as [Hn|Hn]; [congruence|exact Hn].
  - intros ((n & Hn) & Hr & Hm). repeat split; eauto.
Qed.

(** Every tool of the catalog is one of the dispatcher's six cases, and
    the schema it advertises accepts what the schema it parses with does. *)
Lemma catalog_cases tool :
  In tool tools ->
  (exists w,
     Tool.name tool = write_name w
     /\ forall data,
          conforms (Tool.inputSchema tool) data = true <->
          object_issues (shape (write_schema w)) data = [])
  \/ (exists r, Tool.name tool = read_name r).
Proof.
  intros [<-|[<-|[<-|[<-|[<-|[<-|[]]]]]]].
  - right. exists GetLights. reflexivity.
  - left. exists ControlLight. split; [reflexivity|].
    intros data. apply light_conforms.
  - right. exists GetRooms. reflexivity.
  - left. exists ControlRoom. split; [reflexivity|].
    intros data. apply light_conforms.
  - right. exists GetScenes. reflexivity.
  - left. exists ActivateScene. split; [reflexivity|].
    intros data. apply scene_conforms.
Qed.

(** ** The shell's reading of the built command *)

Lemma lex_bare u rest w acc :
  all_chars bare_char u = true ->
  sh_lex (u +:+ rest) Unquoted (Some w) acc =
  sh_lex rest Unquoted (Some (w +:+ u)) acc.
Proof.
  revert w. induction u as [|c u IH]; intros w Hu.
  - rewrite append_nil_l, append_nil_r. reflexivity.
  - cbn [all_chars] in Hu. apply andb_true_iff in Hu as [Hc Hu].
    rewrite append_cons. cbn [sh_lex]. unfold bare_char in Hc.
    destruct (char_class c); try discriminate.
    cbn [push]. rewrite (IH _ Hu), append_assoc. reflexivity.
Qed.

Lemma lex_quoted u rest w acc :
  all_chars quoted_char u = true ->
  sh_lex (u +:+ rest) InDouble (Some w) acc =
  sh_lex rest InDouble (Some (w +:+ u)) acc.
Proof.
  revert w. induction u as [|c u IH]; intros w Hu.
  - rewrite append_nil_l, append_nil_r. reflexivity.
  - cbn [all_chars] in Hu. apply andb_true_iff in Hu as [Hc Hu].
    rewrite append_cons. cbn [sh_lex]. unfold quoted_char in Hc.
    destruct (char_class c); try discriminate;
      cbn [push]; rewrite (IH _ Hu), append_assoc; reflexivity.
Qed.

Lemma lex_word w rest acc :
  survives w = true ->
  sh_lex (render_word w +:+ rest) Unquoted None acc =
  sh_lex rest Unquoted (Some (word_text w)) acc.
Proof.
  destruct w as [s|s]; cbn [survives render_word word_text].
  - intros H. apply andb_true_iff in H as [Hs Hne].
    destruct s as [|c s]; [discriminate|].
    cbn [all_chars] in Hs. apply andb_true_iff in Hs as [Hc Hs].
    rewrite append_cons. cbn [sh_lex]. unfold bare_char in Hc.
    destruct (char_class c); try discriminate.
    cbn [push]. rewrite (lex_bare _ _ _ _ Hs). reflexivity.
  - intros Hs. unfold dq. rewrite !append_assoc.
    rewrite append_cons, append_nil_l.
    cbn [sh_lex char_class open_word].
    rewrite (lex_quoted _ _ _ _ Hs). rewrite append_cons, append_nil_l.
    cbn [sh_lex char_class]. reflexivity.
Qed.

Lemma lex_unwords ws acc :
  forallb survives ws = true ->
  sh_lex (unwords ws) Unquoted None acc =
  Some (acc ++ map word_text ws)%list.
Proof.
  revert acc. induction ws as [|w ws IH]; intros acc H.
  - cbn. now rewrite app_nil_r.
  - cbn [forallb] in H. apply andb_true_iff in H as [Hw Hws].
    unfold unwords. cbn [map]. destruct ws as [|w' ws].
    + cbn [String.concat map]. rewrite <- (append_nil_r (render_word w)).
      rewrite (lex_word _ _ _ Hw). reflexivity.
    + change (String.concat " " (render_word w :: map render_word (w' :: ws)))
        with (render_word w +:+ " " +:+ unwords (w' :: ws)).
      rewrite (lex_word _ _ _ Hw). rewrite append_cons, append_nil_l.
      cbn [sh_lex char_class flush]. rewrite (IH _ Hws).
      cbn [map]. rewrite <- app_assoc. reflexivity.
Qed.

(** Words that survive are read back one argument each, in order. *)
Lemma sh_words_unwords ws :
  forallb survives ws = true ->
  sh_words (unwords ws) = Some (map word_text ws).
Proof. intros H. apply (lex_unwords ws [] H). Qed.

Lemma docker_unwords host w ws :
  buildDockerCommand host (unwords (w :: ws)) =
  unwords (docker_words host ++ w :: ws).
Proof.
  unfold buildDockerCommand, unwords, docker_words.
  cbn [map app render_word String.concat].
  rewrite !append_assoc. reflexivity.
Qed.

Lemma read_command_words r args :
  read_command r args = unwords (request_words (read_request r args)).
Proof.
  destruct r; unfold read_command, request_words, read_request, unwords;
    cbn [name arguments read_name String.eqb Ascii.eqb Bool.eqb];
    repeat match goal with
           | |- context [truthy ?v] => destruct (truthy v)
           end;
    cbn [when app map render_word String.concat];
    rewrite ?append_assoc; reflexivity.
Qed.

Lemma write_command_words w data :
  carries_color (write_request w (Some data)) = false ->
  write_command w (strip (shape (write_schema w)) data) =
  unwords (request_words (write_request w (Some data))).
Proof.
  intros Hc.
  destruct w; unfold carries_color in Hc;
    cbn [write_request name arguments write_name String.eqb Ascii.eqb
         Bool.eqb orb andb opt_get] in Hc;
    unfold write_command, set_command, scene_command, request_words,
      write_request, unwords;
    cbn [name arguments write_name write_schema String.eqb Ascii.eqb
         Bool.eqb opt_get];
    rewrite !strip_lookup;
    cbn [in_shape existsb shape LightActionSchema RoomActionSchema
         SceneActionSchema z_object fst String.eqb Ascii.eqb Bool.eqb orb];
    rewrite ?Hc;
    repeat match goal with
           | |- context [truthy ?v] => destruct (truthy v)
           | |- context [defined ?v] => destruct (defined v)
           end;
    cbn [when app map render_word String.concat];
    rewrite ?append_assoc; reflexivity.
Qed.

Lemma number_is_bare z : all_chars bare_char (number_to_string z) = true.
Proof.
  apply (all_chars_impl number_char); [|apply number_to_string_chars].
  intros [[] [] [] [] [] [] [] []]; vm_compute; congruence.
Qed.

Lemma number_survives z : survives (Bare (number_to_string z)) = true.
Proof.
  cbn [survives]. rewrite number_is_bare, number_not_empty. reflexivity.
Qed.

Ltac in_words H :=
  cbn [when app In docker_words] in H;
  repeat match type of H with
         | _ \/ _ => destruct H as [H|H]
         | False => destruct H
         end;
  try discriminate H;
  try (injection H as <-; first [reflexivity | apply number_survives]).

Lemma bare_words_survive host request cmd s :
  built_command (call_tool host request) = Some cmd ->
  In (Bare s) (docker_words host ++ request_words request) ->
  survives (Bare s) = true.
Proof.
  intros Hb Hin. apply in_app_or in Hin as [Hin|Hin]; [in_words Hin|].
  destruct (call_tool_cases host request) as [(w & Hw)|[(r & Hr)|Hu]].
  - rewrite Hw in Hb.
    destruct (write_built_inv _ _ _ _ Hb) as (params & Hp & _).
    apply safe_parse_inl in Hp as (data & Hd & Hv & _).
    rewrite Hw, Hd in Hin. clear Hw Hd Hb.
    destruct w; unfold request_words, write_request in Hin;
      cbn [name arguments write_name String.eqb Ascii.eqb Bool.eqb opt_get]
        in Hin; cbn [write_schema] in Hv.
    + apply light_issues_nil in Hv
        as (_ & (a & Ha & Hon) & Hbr & _ & Hte).
      rewrite Ha in Hin.
      destruct Hon as [<-|[<-|[]]];
        destruct Hbr as [Hbr | (b & Hbr & _)];
        destruct Hte as [Hte | (k & Hte & _)];
        rewrite Hbr, Hte in Hin;
        try destruct (truthy (Some (JNum k)));
        cbn [defined truthy template to_string] in Hin; in_words Hin.
    + apply light_issues_nil in Hv
        as (_ & (a & Ha & Hon) & Hbr & _ & Hte).
      rewrite Ha in Hin.
      destruct Hon as [<-|[<-|[]]];
        destruct Hbr as [Hbr | (b & Hbr & _)];
        destruct Hte as [Hte | (k & Hte & _)];
        rewrite Hbr, Hte in Hin;
        try destruct (truthy (Some (JNum k)));
        cbn [defined truthy template to_string] in Hin; in_words Hin.
    + apply scene_issues_nil in Hv as (_ & _ & Hm).
      destruct (truthy (data !! "room"));
        destruct Hm as [Hm | (m & Hm & [<-|[<-|[<-|[]]]])];
        rewrite Hm in Hin;
        cbn [truthy template to_string String.eqb Ascii.eqb Bool.eqb negb]
          in Hin; in_words Hin.
  - rewrite Hr in Hin. clear Hr Hb.
    destruct r; unfold request_words, read_request in Hin;
      cbn [name arguments read_name String.eqb Ascii.eqb Bool.eqb] in Hin;
      repeat match type of Hin with
             | context [truthy ?v] => destruct (truthy v)
             end; in_words Hin.
  - rewrite Hu in Hb. discriminate.
Qed.

Lemma request_words_cons request :
  (exists w args, request = write_request w args)
  \/ (exists r args, request = read_request r args) ->
  exists x ws, request_words request = x :: ws.
Proof.
  intros [(w & args & ->)|(r & args & ->)]; [destruct w|destruct r];
    eexists; eexists; reflexivity.
Qed.

(** ** Worked examples *)

Example number_to_string_examples :
  number_to_string 0 = "0" /\ number_to_string 153 = "153"
  /\ number_to_string (-5) = "-5"
  /\ number_to_string (decimal 505 (-1)) = "50.5"
  /\ number_to_string (decimal (-1525) (-1)) = "-152.5"
  /\ number_to_string (decimal 5050 (-2)) = "50.5"
  /\ number_to_string (decimal 1 (-3)) = "0.001"
  /\ number_to_string (decimal 123 (-8)) = "0.00000123"
  /\ number_to_string (decimal 15 (-8)) = "1.5e-7"
  /\ number_to_string (10 ^ 20) = "100000000000000000000"
  /\ number_to_string (10 ^ 21) = "1e+21"
  /\ number_to_string (decimal 12345 20) = "1.2345e+24"
  /\ number_to_string (Finite true 0 0) = "0"
  /\ number_to_string (Infinite true) = "-Infinity".
Proof. repeat split; reflexivity. Qed.

Example number_comparisons :
  number_lt (decimal 1525 (-1)) 153 = true
  /\ number_lt 153 153 = false
  /\ number_gt 500 500 = false
  /\ number_gt (decimal 5005 (-1)) 500 = true
  /\ number_lt (decimal (-5) (-1)) 0 = true
  /\ number_lt (Finite true 0 0) 0 = false
  /\ number_gt (decimal 1 3) 500 = true
  /\ number_gt (Infinite false) 100 = true.
Proof. repeat split; reflexivity. Qed.

Example to_string_examples :
  to_string (JArr [JNum 1; JNull; JStr "x"; JBool true]) = Some "1,,x,true"
  /\ to_string (JObj [("id", JNum 1)]) = Some "[object Object]"
  /\ to_string (JObj [("toString", JNull)]) = None
  /\ to_string (JArr [JStr "a"; JObj [("toString", JStr "b")]]) = None.
Proof. repeat split; reflexivity. Qed.

Example unconvertible_light_id :
  call_tool posix_host
    {| name := "get-lights";
       arguments := Some (<["lightId" := JObj [("toString", JNull)]]> ∅) |} =
  Throw (Error "Cannot convert object to primitive value").
Proof. reflexivity. Qed.

Example object_light_id :
  built_command
    (call_tool posix_host
       {| name := "get-lights";
          arguments := Some (<["lightId" := JObj [("id", JNum 1)]]> ∅) |}) =
  Some ("docker run -v " +:+ dq +:+ "/home/hue/.openhue:/.openhue" +:+ dq
          +:+ " --rm openhue/cli get light " +:+ dq +:+ "[object Object]"
          +:+ dq +:+ " --json").
Proof. reflexivity. Qed.

Example huge_light_id :
  built_command
    (call_tool posix_host
       {| name := "get-lights";
          arguments := Some (<["lightId" := JNum (10 ^ 21)]> ∅) |}) =
  Some ("docker run -v " +:+ dq +:+ "/home/hue/.openhue:/.openhue" +:+ dq
          +:+ " --rm openhue/cli get light " +:+ dq +:+ "1e+21" +:+ dq
          +:+ " --json").
Proof. reflexivity. Qed.

Example fractional_brightness :
  built_command
    (call_tool posix_host
       (write_request ControlLight
          (Some (<["brightness" := JNum (decimal 505 (-1))]> plain_light)))) =
  Some ("docker run -v " +:+ dq +:+ "/home/hue/.openhue:/.openhue" +:+ dq
          +:+ " --rm openhue/cli set light " +:+ dq +:+ "Desk Lamp" +:+ dq
          +:+ " --on --brightness 50.5").
Proof. reflexivity. Qed.

Example fractional_temperature_refused :
  call_tool posix_host
    (write_request ControlRoom
       (Some (<["temperature" := JNum (decimal 5005 (-1))]> plain_light))) =
  Throw (Error
    "Invalid arguments: temperature: Number must be less than or equal to 500").
Proof. reflexivity. Qed.

Example temperature_bounds_pass :
  built_command
    (call_tool posix_host (write_request ControlLight (Some warmest))) =
  Some ("docker run -v " +:+ dq +:+ "/home/hue/.openhue:/.openhue" +:+ dq
          +:+ " --rm openhue/cli set light " +:+ dq +:+ "Desk Lamp" +:+ dq
          +:+ " --on --temperature 500")
  /\ built_command
       (call_tool posix_host
          (write_request ControlRoom
             (Some (<["temperature" := JNum 153]> plain_light)))) =
     Some ("docker run -v " +:+ dq +:+ "/home/hue/.openhue:/.openhue" +:+ dq
             +:+ " --rm openhue/cli set room " +:+ dq +:+ "Desk Lamp" +:+ dq
             +:+ " --on --temperature 153").
Proof. split; reflexivity. Qed.

Example unknown_tool_fails :
  call_tool posix_host {| name := "dim-lights"; arguments := None |} =
  Throw (Error "Unknown tool: dim-lights").
Proof. reflexivity. Qed.

Example activate_scene_builds :
  built_command
    (call_tool posix_host
       {| name := "activate-scene"; arguments := Some relaxing_dynamic |}) =
  Some ("docker run -v " +:+ dq +:+ "/home/hue/.openhue:/.openhue" +:+ dq
          +:+ " --rm openhue/cli set scene " +:+ dq +:+ "Relaxing" +:+ dq
          +:+ " --action dynamic").
Proof. reflexivity. Qed.

Example two_violations_one_message :
  call_tool posix_host
    {| name := "control-room"; arguments := Some dim_and_too_warm |} =
  Throw (Error
    ("Invalid arguments: target: Required, "
       +:+ "action: Invalid enum value. Expected 'on' | 'off', received 'dim', "
       +:+ "temperature: Number must be less than or equal to 500")).
Proof. reflexivity. Qed.

Example stderr_on_success_is_a_failure :
  run (fun _ => Exited 0 "[]" "warning: slow bridge")
      (call_tool posix_host {| name := "get-rooms"; arguments := None |}) =
  inr (Error "warning: slow bridge").
Proof. reflexivity. Qed.

Example conforms_examples :
  conforms
    (InputSchema.mk
       [ ("name", string_property "Scene name or ID");
         ("room", string_property "Optional room name for the scene");
         ("mode", enum_property ["active"; "dynamic"; "static"]
            "Optional scene mode") ]
       ["name"]) relaxing_dynamic = true
  /\ conforms (Tool.inputSchema get_lights_tool) desk_lamp_query = true
  /\ conforms (Tool.inputSchema get_lights_tool) ∅ = true
  /\ conforms
       (InputSchema.mk
          [ ("name", string_property "Scene name or ID");
            ("room", string_property "Optional room name for the scene");
            ("mode", enum_property ["active"; "dynamic"; "static"]
               "Optional scene mode") ]
          ["name"]) (<["mode" := JStr "dynamic"]> ∅) = false.
Proof. repeat split; reflexivity. Qed.

Example sh_words_examples :
  sh_words ("get light " +:+ dq +:+ "Desk Lamp" +:+ dq +:+ " --json") =
    Some ["get"; "light"; "Desk Lamp"; "--json"]
  /\ sh_words ("set scene " +:+ dq +:+ dq) = Some ["set"; "scene"; ""]
  /\ sh_words "a 'b c'\ d" = Some ["a"; "b c d"]
  /\ sh_words ("say " +:+ dq +:+ "$HOME" +:+ dq) = None
  /\ sh_words "get light; reboot" = None.
Proof. repeat split; reflexivity. Qed.

(** * The claims of the specification *)

(** C1 (as amended). For every call that carries no color, the built
    command is the words of the container-run prefix followed by the words
    of the tool, joined by single blanks, where the configuration mount
    and every target, name, room, lightId and roomId stand between double
    quotes.  Whenever those quoted values hold no double quote, backslash,
    dollar or backquote, the shell reads the command back as exactly these
    words, each value one argument, blanks and the other special
    characters included. *)
Theorem quoted_values_read_back host request cmd :
  built_command (call_tool host request) = Some cmd ->
  carries_color request = false ->
  cmd = unwords (docker_words host ++ request_words request)
  /\ ((forall s,
         In (Quoted s) (docker_words host ++ request_words request) ->
         all_chars quoted_char s = true) ->
      sh_words cmd =
      Some (map word_text (docker_words host ++ request_words request))).
Proof.
  intros Hb Hc.
  assert (cmd = unwords (docker_words host ++ request_words request)) as Hcmd.
  { destruct (call_tool_cases host request) as [(w & Hw)|[(r & Hr)|Hu]].
    - destruct (request_words_cons request) as (x & ws & Hx); [eauto|].
      rewrite Hx, <- docker_unwords, <- Hx.
      rewrite Hw in Hb, Hc |- *.
      destruct (write_built_inv _ _ _ _ Hb) as (params & Hp & ->).
      apply safe_parse_inl in Hp as (data & Hd & _ & ->).
      rewrite Hd in Hc |- *. rewrite (write_command_words w data Hc).
      reflexivity.
    - destruct (request_words_cons request) as (x & ws & Hx); [eauto|].
      rewrite Hx, <- docker_unwords, <- Hx.
      rewrite Hr in Hb |- *. destruct (read_built_inv _ _ _ _ Hb) as [_ ->].
      rewrite read_command_words. reflexivity.
    - rewrite Hu in Hb. discriminate. }
  split; [exact Hcmd|]. intros Hq. rewrite Hcmd.
  apply sh_words_unwords, forallb_forall. intros [s|s] Hin.
  - apply (bare_words_survive host request cmd s Hb Hin).
  - apply (Hq s Hin).
Qed.

Lemma quoted_values_read_back_witness :
  sh_words
    ("docker run -v " +:+ dq +:+ "/home/hue/.openhue:/.openhue" +:+ dq
       +:+ " --rm openhue/cli set light " +:+ dq +:+ "Desk Lamp" +:+ dq
       +:+ " --on --brightness 50") =
  Some ["docker"; "run"; "-v"; "/home/hue/.openhue:/.openhue"; "--rm";
        "openhue/cli"; "set"; "light"; "Desk Lamp"; "--on"; "--brightness";
        "50"].
Proof.
  refine (proj2 (quoted_values_read_back posix_host
                   (write_request ControlLight (Some desk_lamp_on))
                   _ eq_refl eq_refl) _).
  intros s Hin. vm_compute in Hin.
  repeat match type of Hin with
         | _ \/ _ => destruct Hin as [Hin|Hin]
         | False => destruct Hin
         end; try discriminate Hin; injection Hin as <-; reflexivity.
Defined.

(** The claim as written promises the round trip for every value.  A
    color goes into the command without quotes, so one with a blank
    arrives as two arguments; and a quoted value is not escaped, so a
    name holding double quotes arrives without them. *)
Lemma values_not_read_back :
  shell_arguments
    (call_tool posix_host
       {| name := "control-light"; arguments := Some light_blue |}) =
  Some ["docker"; "run"; "-v"; "/home/hue/.openhue:/.openhue"; "--rm";
        "openhue/cli"; "set"; "light"; "Desk Lamp"; "--on"; "--color";
        "light"; "blue"]
  /\ ~ read_back_whole posix_host
         {| name := "control-light"; arguments := Some light_blue |}
         "light blue"
  /\ shell_arguments
       (call_tool posix_host
          {| name := "activate-scene"; arguments := Some movie_night |}) =
     Some ["docker"; "run"; "-v"; "/home/hue/.openhue:/.openhue"; "--rm";
           "openhue/cli"; "set"; "scene"; "Movie night"]
  /\ ~ read_back_whole posix_host
         {| name := "activate-scene"; arguments := Some movie_night |}
         ("Movie " +:+ dq +:+ "night" +:+ dq).
Proof.
  split; [reflexivity|]. split; [|split; [reflexivity|]].
  - intros (argv & Ha & Hin). vm_compute in Ha. injection Ha as <-.
    cbn in Hin.
    repeat match type of Hin with
           | _ \/ _ => destruct Hin as [Hin|Hin]
           | False => destruct Hin
           end; discriminate Hin.
  - intros (argv & Ha & Hin). vm_compute in Ha. injection Ha as <-.
    vm_compute in Hin.
    repeat match type of Hin with
           | _ \/ _ => destruct Hin as [Hin|Hin]
           | False => destruct Hin
           end; discriminate Hin.
Qed.

(** For control-light, control-room and activate-scene the advertised
    schema and validation agree: a bag that conforms to the advertised
    schema gets its command built, every other bag fails with the
    invalid-arguments error before any command exists, and so does an
    absent bag. *)
Lemma write_tools_enforce_schema host tool :
  In tool tools ->
  In (Tool.name tool) ["control-light"; "control-room"; "activate-scene"] ->
  enforces_schema host tool
  /\ call_tool host {| name := Tool.name tool; arguments := None |} =
     Throw (Error "Invalid arguments: : Required").
Proof.
  intros Hin.
  destruct (catalog_cases tool Hin) as [(w & Hn & Hc)|(r & Hn)]; rewrite Hn.
  - intros _. split.
    + intros data. rewrite Hn.
      change {| name := write_name w; arguments := Some data |}
        with (write_request w (Some data)).
      split.
      * intros Hok. apply Hc in Hok. eexists.
        apply write_valid_built, Hok.
      * intros Hbad.
        destruct (object_issues (shape (write_schema w)) data)
          as [|issue issues] eqn:Hi.
        -- apply Hc in Hi. congruence.
        -- exists (issue :: issues). apply call_write_invalid.
           unfold safe_parse. rewrite Hi. reflexivity.
    + destruct w; reflexivity.
  - destruct r; cbn; intros Hr; repeat destruct Hr as [Hr|Hr];
      try discriminate; destruct Hr.
Qed.

(** C2 (the code departs from the claim). The claim has every tool of
    the catalog refuse a bag that violates the schema it advertises,
    before any command is built.  get-lights is in the catalog and
    advertises a string for lightId; the bag with lightId 5 does not
    conform to that schema, yet the call is not refused: the handler
    never validates and builds [get light "5" --json] around the printed
    number, so get-lights does not enforce its schema. *)
Theorem get_lights_skips_validation :
  In get_lights_tool tools
  /\ conforms (Tool.inputSchema get_lights_tool) numeric_light_id = false
  /\ built_command
       (call_tool posix_host
          {| name := "get-lights"; arguments := Some numeric_light_id |}) =
     Some ("docker run -v " +:+ dq +:+ "/home/hue/.openhue:/.openhue" +:+ dq
             +:+ " --rm openhue/cli get light " +:+ dq +:+ "5" +:+ dq
             +:+ " --json")
  /\ ~ enforces_schema posix_host get_lights_tool.
Proof.
  split; [left; reflexivity|]. split; [reflexivity|]. split; [reflexivity|].
  intros H. destruct (H numeric_light_id) as [_ Hbad].
  destruct (Hbad eq_refl) as (issues & Hthrow). discriminate.
Qed.

(** C3 (as amended). When the subprocess of a write tool exits with status
    zero and an empty standard error, whatever it printed is dropped and
    the response is a fixed sentence: control-light and control-room name
    the target and the action, activate-scene names the scene only.  The
    bag target "Desk Lamp", action "on", brightness 50 builds
    [set light "Desk Lamp" --on --brightness 50] and is confirmed with
    [Successfully set light "Desk Lamp" to on]. *)
Theorem write_tools_confirm host os w data cmd stdout :
  built_command (call_tool host (write_request w (Some data))) = Some cmd ->
  os cmd = Exited 0 stdout "" ->
  match w with
  | ControlLight =>
      exists t a,
        data !! "target" = Some (JStr t) /\ data !! "action" = Some (JStr a)
        /\ run os (call_tool host (write_request w (Some data))) =
           inl (text_response
                  ("Successfully set light " +:+ dq +:+ t +:+ dq
                     +:+ " to " +:+ a))
  | ControlRoom =>
      exists t a,
        data !! "target" = Some (JStr t) /\ data !! "action" = Some (JStr a)
        /\ run os (call_tool host (write_request w (Some data))) =
           inl (text_response
                  ("Successfully set room " +:+ dq +:+ t +:+ dq
                     +:+ " to " +:+ a))
  | ActivateScene =>
      exists n,
        data !! "name" = Some (JStr n)
        /\ run os (call_tool host (write_request w (Some data))) =
           inl (text_response
                  ("Successfully activated scene " +:+ dq +:+ n +:+ dq))
  end
  /\ (w = ControlLight -> data = desk_lamp_on ->
      cmd = "docker run -v " +:+ dq +:+ join host (homedir host) ".openhue"
              +:+ ":/.openhue" +:+ dq +:+ " --rm openhue/cli "
              +:+ "set light " +:+ dq +:+ "Desk Lamp" +:+ dq
              +:+ " --on --brightness 50"
      /\ run os (call_tool host (write_request w (Some data))) =
         inl (text_response
                ("Successfully set light " +:+ dq +:+ "Desk Lamp" +:+ dq
                   +:+ " to on"))).
Proof.
  intros Hb Hos.
  destruct (write_built_inv _ _ _ _ Hb) as (params & Hp & ->).
  pose proof (call_write_run host os w _ _ Hp) as Hrun.
  rewrite Hos in Hrun. cbn [execution_result Z.eqb String.eqb] in Hrun.
  split.
  - destruct w; cbn [write_schema] in Hp.
    + apply light_parsed in Hp as (Hi & Ht & Ha & _).
      apply light_issues_nil in Hi as ((t & Hdt) & (a & Hda & _) & _).
      exists t, a. rewrite Hrun. cbn [write_confirmation].
      unfold set_confirmation. rewrite Ht, Ha, Hdt, Hda. auto.
    + apply light_parsed in Hp as (Hi & Ht & Ha & _).
      apply light_issues_nil in Hi as ((t & Hdt) & (a & Hda & _) & _).
      exists t, a. rewrite Hrun. cbn [write_confirmation].
      unfold set_confirmation. rewrite Ht, Ha, Hdt, Hda. auto.
    + apply scene_parsed in Hp as (Hi & Hn & _).
      apply scene_issues_nil in Hi as ((n & Hdn) & _).
      exists n. rewrite Hrun. cbn [write_confirmation].
      unfold scene_confirmation. rewrite Hn, Hdn. auto.
  - intros -> ->. rewrite Hrun.
    assert (params = strip (shape LightActionSchema) desk_lamp_on) as ->.
    { apply safe_parse_inl in Hp as (d & [= <-] & _ & ->). reflexivity. }
    split; reflexivity.
Qed.

Lemma write_tools_confirm_witness :
  run (fun _ => Exited 0 "ignored output" "")
      (call_tool posix_host (write_request ControlLight (Some desk_lamp_on))) =
  inl (text_response
         ("Successfully set light " +:+ dq +:+ "Desk Lamp" +:+ dq
            +:+ " to on")).
Proof.
  refine (proj2 (proj2
    (write_tools_confirm posix_host (fun _ => Exited 0 "ignored output" "")
       ControlLight desk_lamp_on _ "ignored output" _ _)
    eq_refl eq_refl)); reflexivity.
Defined.

(** The claim as written also asks the confirmation of activate-scene to
    name the mode; the source's sentence has no place for it. *)
Lemma scene_confirmation_omits_mode :
  run (fun _ => Exited 0 "" "")
      (call_tool posix_host
         {| name := "activate-scene"; arguments := Some relaxing_dynamic |}) =
  inl (text_response
         ("Successfully activated scene " +:+ dq +:+ "Relaxing" +:+ dq))
  /\ ~ contains "dynamic"
       ("Successfully activated scene " +:+ dq +:+ "Relaxing" +:+ dq).
Proof.
  split; [reflexivity|].
  rewrite contains_occurrences. intros H. apply H. reflexivity.
Qed.

(** C4. Whenever the subprocess exits with a non-zero status or writes to
    standard error, the call ends in one failure, an [Error] whose message
    contains the captured standard error text as it is, and in no
    response. *)
Theorem external_failure_reported host os request cmd code stdout stderr :
  built_command (call_tool host request) = Some cmd ->
  os cmd = Exited code stdout stderr ->
  code <> 0 \/ stderr <> "" ->
  exists msg,
    run os (call_tool host request) = inr (Error msg)
    /\ contains stderr msg.
Proof.
  intros Hb Hos Hfail.
  assert (exists msg, execution_result cmd (os cmd) = inr (Error msg)
                      /\ contains stderr msg) as (msg & Hres & Hmsg).
  { rewrite Hos. cbn [execution_result].
    destruct (Z.eqb_spec code 0) as [->|Hc].
    - destruct (String.eqb_spec stderr "") as [->|He].
      + destruct Hfail; congruence.
      + exists stderr. split; [reflexivity|apply contains_refl].
    - eexists. split; [reflexivity|].
      apply contains_append_l, contains_append_l, contains_append_l,
        contains_refl. }
  exists msg. split; [|exact Hmsg].
  destruct (call_tool_cases host request) as [(w & Hw)|[(r & Hr)|Hu]].
  - rewrite Hw in Hb |- *.
    destruct (write_built_inv _ _ _ _ Hb) as (params & Hp & ->).
    rewrite (call_write_run host os w _ _ Hp), Hres. reflexivity.
  - rewrite Hr in Hb |- *. destruct (read_built_inv _ _ _ _ Hb) as [Hc ->].
    rewrite (call_read_run _ _ _ _ Hc), Hres. reflexivity.
  - rewrite Hu in Hb. discriminate.
Qed.

Lemma external_failure_reported_witness :
  exists msg,
    run (fun _ => Exited 1 "" "bridge unreachable")
        (call_tool posix_host
           {| name := "get-lights"; arguments := None |}) = inr (Error msg)
    /\ contains "bridge unreachable" msg.
Proof.
  refine (external_failure_reported posix_host
            (fun _ => Exited 1 "" "bridge unreachable")
            {| name := "get-lights"; arguments := None |}
            _ 1 "" "bridge unreachable" eq_refl eq_refl _).
  left. lia.
Defined.

(** C5 (as amended). Validation requires target (control-light,
    control-room) and name (activate-scene) to be strings, and color, when
    present, to be a string; it does not ask for them to be non-empty.
    Putting the empty string for the target or name, or for the color, of a
    bag that passes validation gives a bag that passes too, and a command
    is built; putting a value that is not a string there, or taking the
    target or name away, gives the invalid-arguments error, which names
    the field. *)
Theorem string_fields_checked_for_type_only host w data :
  object_issues (shape (write_schema w)) data = [] ->
  (exists cmd,
     built_command
       (call_tool host
          (write_request w (Some (<[name_key w := JStr ""]> data)))) =
     Some cmd)
  /\ (w <> ActivateScene ->
      exists cmd,
        built_command
          (call_tool host
             (write_request w (Some (<["color" := JStr ""]> data)))) =
        Some cmd)
  /\ (forall v, (forall s, v <> JStr s) ->
      exists issues,
        call_tool host (write_request w (Some (<[name_key w := v]> data))) =
        Throw (Error (invalid_arguments issues))
        /\ contains (name_key w +:+ ": Expected string, received "
                       +:+ parsed_type (Some v))
             (invalid_arguments issues))
  /\ (w <> ActivateScene ->
      forall v, (forall s, v <> JStr s) ->
      exists issues,
        call_tool host (write_request w (Some (<["color" := v]> data))) =
        Throw (Error (invalid_arguments issues))
        /\ contains ("color: Expected string, received "
                       +:+ parsed_type (Some v))
             (invalid_arguments issues))
  /\ (exists issues,
        call_tool host
          (write_request w (Some (delete (name_key w) data))) =
        Throw (Error (invalid_arguments issues))
        /\ contains (name_key w +:+ ": Required")
             (invalid_arguments issues)).
Proof.
  intros Hv. split; [|split; [|split; [|split]]].
  - eexists. apply write_valid_built, valid_with_empty_name, Hv.
  - intros Hw. eexists. apply write_valid_built, valid_with_empty_color;
      [destruct w; auto; congruence | exact Hv].
  - intros v Hs. eexists.
    refine ((fun H => conj (proj1 H) (proj2 (proj2 H)))
              (violation_reported host w _ _ _ _ (name_key_in_shape w) _)).
    rewrite lookup_insert_eq, (not_a_string_issue v Hs). left. reflexivity.
  - intros Hw v Hs. eexists.
    refine ((fun H => conj (proj1 H) (proj2 (proj2 H)))
              (violation_reported host w _ "color" (z_optional z_string)
                 _ _ _)).
    + destruct w; cbn; tauto.
    + rewrite lookup_insert_eq.
      change (type_issues (z_optional z_string) (Some v))
        with (type_issues z_string (Some v)).
      rewrite (not_a_string_issue v Hs). left. reflexivity.
  - eexists.
    refine ((fun H => conj (proj1 H) (proj2 (proj2 H)))
              (violation_reported host w _ _ _ _ (name_key_in_shape w) _)).
    rewrite lookup_delete_eq. left. reflexivity.
Qed.

Lemma string_fields_checked_for_type_only_witness :
  exists cmd,
    built_command
      (call_tool posix_host
         (write_request ControlLight
            (Some (<["target" := JStr ""]> plain_light)))) = Some cmd.
Proof.
  refine (proj1 (string_fields_checked_for_type_only posix_host ControlLight
                   plain_light _)).
  reflexivity.
Defined.

(** The claim as written has the empty target rejected; the source's
    [z.string()] accepts it and the command is built around it. *)
Lemma empty_target_builds_command :
  built_command
    (call_tool posix_host
       {| name := "control-light"; arguments := Some nameless_light |}) =
  Some ("docker run -v " +:+ dq +:+ "/home/hue/.openhue:/.openhue" +:+ dq
          +:+ " --rm openhue/cli set light " +:+ dq +:+ dq +:+ " --on").
Proof. reflexivity. Qed.

(** C6. When validation finds violations, the call fails with one error
    whose message is [Invalid arguments: ] followed by the issues of every
    key of the schema, each as [path: reason], joined by commas: whatever
    key of the schema raises whatever reason, the message contains that
    key with that reason. *)
Theorem all_violations_reported host w data key t reason :
  In (key, t) (shape (write_schema w)) ->
  In reason (type_issues t (data !! key)) ->
  call_tool host (write_request w (Some data)) =
    Throw (Error ("Invalid arguments: " +:+
                    String.concat ", "
                      (map (fun e => String.concat "." (path e) +:+ ": "
                                       +:+ message e)
                           (object_issues (shape (write_schema w)) data))))
  /\ In {| path := [key]; message := reason |}
        (object_issues (shape (write_schema w)) data)
  /\ contains (key +:+ ": " +:+ reason)
       ("Invalid arguments: " +:+
          String.concat ", "
            (map (fun e => String.concat "." (path e) +:+ ": " +:+ message e)
                 (object_issues (shape (write_schema w)) data))).
Proof. apply violation_reported. Qed.

Lemma all_violations_reported_witness :
  call_tool posix_host (write_request ControlLight (Some dim_and_too_warm)) =
  Throw (Error
    ("Invalid arguments: target: Required, "
       +:+ "action: Invalid enum value. Expected 'on' | 'off', received 'dim', "
       +:+ "temperature: Number must be less than or equal to 500")).
Proof.
  refine (proj1 (all_violations_reported posix_host ControlLight
                   dim_and_too_warm "temperature"
                   (z_optional (z_max 500 (z_min 153 z_number)))
                   "Number must be less than or equal to 500" _ _)).
  - cbn. tauto.
  - left. reflexivity.
Defined.

(** C7. For control-light and control-room and every number given as
    temperature, whole or fractional: one below 153 or above 500 makes
    the call fail with the invalid-arguments error, whose issues and
    message name the temperature field; one from 153 to 500, both ends
    included, raises no issue on that field, and the bag passes validation
    when its other fields do. *)
Theorem temperature_range_enforced host w data (t : JsNumber) :
  w = ControlLight \/ w = ControlRoom ->
  data !! "temperature" = Some (JNum t) ->
  (number_lt t 153 = true ->
   call_tool host (write_request w (Some data)) =
     Throw (Error (invalid_arguments
                     (object_issues (shape (write_schema w)) data)))
   /\ In {| path := ["temperature"];
            message := "Number must be greater than or equal to 153" |}
         (object_issues (shape (write_schema w)) data)
   /\ contains "temperature: Number must be greater than or equal to 153"
        (invalid_arguments (object_issues (shape (write_schema w)) data)))
  /\ (number_gt t 500 = true ->
      call_tool host (write_request w (Some data)) =
        Throw (Error (invalid_arguments
                        (object_issues (shape (write_schema w)) data)))
      /\ In {| path := ["temperature"];
               message := "Number must be less than or equal to 500" |}
            (object_issues (shape (write_schema w)) data)
      /\ contains "temperature: Number must be less than or equal to 500"
           (invalid_arguments (object_issues (shape (write_schema w)) data)))
  /\ (number_lt t 153 = false -> number_gt t 500 = false ->
      (forall issue,
         In issue (object_issues (shape (write_schema w)) data) ->
         path issue <> ["temperature"])
      /\ (object_issues (shape (write_schema w)) (delete "temperature" data)
          = [] ->
          exists cmd,
            built_command (call_tool host (write_request w (Some data))) =
            Some cmd)).
Proof.
  intros Hw Ht.
  assert (In ("temperature", z_optional (z_max 500 (z_min 153 z_number)))
             (shape (write_schema w))) as Hk.
  { rewrite (light_room_shape w Hw). cbn. tauto. }
  split; [|split].
  - intros Hlow.
    apply (violation_reported host w data _ _ _ Hk).
    rewrite Ht. apply in_or_app. left. cbn [check_number]. rewrite Hlow.
    left. reflexivity.
  - intros Hhigh.
    apply (violation_reported host w data _ _ _ Hk).
    rewrite Ht. apply in_or_app. right. apply in_or_app. left.
    cbn [check_number]. rewrite Hhigh. left. reflexivity.
  - intros Hlo Hhi. split.
    + rewrite (light_room_shape w Hw).
      unfold object_issues, LightActionSchema, z_object.
      cbn [shape flat_map]. intros issue.
      rewrite !in_app_iff.
      intros [H|[H|[H|[H|[H|[]]]]]];
        try (apply key_issues_path in H; rewrite H; discriminate).
      unfold key_issues in H. cbn [fst snd] in H. rewrite Ht in H.
      cbn [type_issues z_optional z_max z_min z_number app flat_map
           check_number] in H.
      rewrite Hlo, Hhi in H. destruct H.
    + intros Hrest. eexists. apply write_valid_built.
      rewrite (light_room_shape w Hw) in Hrest |- *.
      apply light_issues_nil. apply light_issues_nil in Hrest.
      rewrite !lookup_delete_ne in Hrest by discriminate.
      destruct Hrest as (H1 & H2 & H3 & H4 & _).
      repeat (split; [assumption|]). right. exists t.
      split; [exact Ht|split; assumption].
Qed.

Lemma temperature_range_enforced_witness :
  call_tool posix_host (write_request ControlLight (Some slightly_cold)) =
  Throw (Error
    ("Invalid arguments: "
       +:+ "temperature: Number must be greater than or equal to 153")).
Proof.
  refine (proj1 (proj1
    (temperature_range_enforced posix_host ControlLight slightly_cold
       (decimal 1525 (-1)) _ _) _)).
  - left. reflexivity.
  - reflexivity.
  - reflexivity.
Defined.

(** C8 (as amended). For control-light and control-room and every number
    v from 0 to 100, 0 included and whole or fractional, the command built
    for a valid bag carrying that brightness is the base command, then
    [ --brightness v] with v as JavaScript prints it, then the color and
    temperature flags of the bag; with the brightness left out it is the
    base command followed by those flags alone.  The builder thus writes
    the flag once, or not at all: counted as text, the first command holds
    [--brightness] once and the second never, apart from the places where
    the target or the color of the bag spell that text themselves. *)
Theorem brightness_flag_once host w data (v : JsNumber) :
  w = ControlLight \/ w = ControlRoom ->
  object_issues (shape (write_schema w)) data = [] ->
  number_lt v 0 = false ->
  number_gt v 100 = false ->
  built_command
    (call_tool host
       (write_request w (Some (<["brightness" := JNum v]> data)))) =
  Some (buildDockerCommand host
          (set_base (kind_of w) data +:+ (" --brightness "
             +:+ number_to_string v) +:+ color_flag data
             +:+ temperature_flag data))
  /\ occurrences "--brightness"
       (set_base (kind_of w) data +:+ (" --brightness "
          +:+ number_to_string v) +:+ color_flag data
          +:+ temperature_flag data) =
     (1 + occurrences "--brightness" (template (data !! "target"))
      + occurrences "--brightness" (color_text data))%nat
  /\ built_command
       (call_tool host (write_request w (Some (delete "brightness" data)))) =
     Some (buildDockerCommand host
             (set_base (kind_of w) data +:+ color_flag data
                +:+ temperature_flag data))
  /\ occurrences "--brightness"
       (set_base (kind_of w) data +:+ color_flag data
          +:+ temperature_flag data) =
     (occurrences "--brightness" (template (data !! "target"))
      + occurrences "--brightness" (color_text data))%nat.
Proof.
  intros Hw Hv Hlo Hhi.
  pose proof (valid_with_brightness w data v Hw (conj Hlo Hhi) Hv) as Hv1.
  pose proof (valid_without w "brightness" data Hw (or_introl eq_refl) Hv)
    as Hv0.
  assert (kind_of w = "light" \/ kind_of w = "room") as Hk
    by (destruct Hw as [-> | ->]; auto).
  assert (set_base (kind_of w) (<["brightness" := JNum v]> data) =
          set_base (kind_of w) data) as Eb1 by flags_by_lookup.
  assert (brightness_flag (<["brightness" := JNum v]> data) =
          " --brightness " +:+ number_to_string v) as Ef1 by flags_by_lookup.
  assert (color_flag (<["brightness" := JNum v]> data) = color_flag data)
    as Ec1 by flags_by_lookup.
  assert (temperature_flag (<["brightness" := JNum v]> data) =
          temperature_flag data) as Et1 by flags_by_lookup.
  assert (set_base (kind_of w) (delete "brightness" data) =
          set_base (kind_of w) data) as Eb0 by flags_by_lookup.
  assert (brightness_flag (delete "brightness" data) = "") as Ef0
    by flags_by_lookup.
  assert (color_flag (delete "brightness" data) = color_flag data)
    as Ec0 by flags_by_lookup.
  assert (temperature_flag (delete "brightness" data) =
          temperature_flag data) as Et0 by flags_by_lookup.
  rewrite (light_room_shape w Hw) in Hv1, Hv0.
  pose proof (brightness_count (kind_of w) _ Hk Hv1) as C1.
  pose proof (brightness_count (kind_of w) _ Hk Hv0) as C0.
  rewrite Eb1, Ef1, Ec1, Et1 in C1. rewrite Eb0, Ef0, Ec0, Et0 in C0.
  rewrite append_nil_l in C0.
  replace (color_text (<["brightness" := JNum v]> data))
    with (color_text data) in C1 by flags_by_lookup.
  replace (color_text (delete "brightness" data))
    with (color_text data) in C0 by flags_by_lookup.
  rewrite lookup_insert_eq, lookup_insert_ne in C1 by discriminate.
  rewrite lookup_delete_eq, lookup_delete_ne in C0 by discriminate.
  cbn [defined] in C1, C0.
  rewrite <- (light_room_shape w Hw) in Hv1, Hv0.
  split; [|split; [exact C1|split; [|exact C0]]].
  - rewrite (light_room_command host w _ Hw Hv1).
    rewrite Eb1, Ef1, Ec1, Et1. reflexivity.
  - rewrite (light_room_command host w _ Hw Hv0).
    rewrite Eb0, Ef0, Ec0, Et0. reflexivity.
Qed.

Lemma brightness_flag_once_witness :
  built_command
    (call_tool posix_host
       (write_request ControlLight
          (Some (<["brightness" := JNum (decimal 505 (-1))]> plain_light)))) =
  Some ("docker run -v " +:+ dq +:+ "/home/hue/.openhue:/.openhue" +:+ dq
          +:+ " --rm openhue/cli set light " +:+ dq +:+ "Desk Lamp" +:+ dq
          +:+ " --on --brightness 50.5").
Proof.
  refine (proj1 (brightness_flag_once posix_host ControlLight plain_light
                   (decimal 505 (-1)) _ _ _ _)).
  - left. reflexivity.
  - reflexivity.
  - reflexivity.
  - reflexivity.
Defined.

(** The claim as written counts the flags of the built command whatever
    the other values are.  The builder writes the target and the color
    as it finds them, so a valid bag whose color ends in a brightness
    flag gets that flag with no brightness given and two of them with a
    brightness of 50; a target that is the flag's name arrives as an
    argument of that name, and one that closes its own quotes brings a
    flag along. *)
Lemma brightness_flag_not_once :
  object_issues (shape LightActionSchema) red_and_bright = []
  /\ red_and_bright !! "brightness" = None
  /\ shell_arguments
       (call_tool posix_host
          (write_request ControlLight (Some red_and_bright))) =
     Some ["docker"; "run"; "-v"; "/home/hue/.openhue:/.openhue"; "--rm";
           "openhue/cli"; "set"; "light"; "Desk Lamp"; "--on"; "--color";
           "red"; "--brightness"; "100"]
  /\ shell_arguments
       (call_tool posix_host
          (write_request ControlLight
             (Some (<["brightness" := JNum 50]> red_and_bright)))) =
     Some ["docker"; "run"; "-v"; "/home/hue/.openhue:/.openhue"; "--rm";
           "openhue/cli"; "set"; "light"; "Desk Lamp"; "--on";
           "--brightness"; "50"; "--color"; "red"; "--brightness"; "100"]
  /\ shell_arguments
       (call_tool posix_host
          (write_request ControlLight
             (Some (<["target" := JStr "--brightness"]> plain_light)))) =
     Some ["docker"; "run"; "-v"; "/home/hue/.openhue:/.openhue"; "--rm";
           "openhue/cli"; "set"; "light"; "--brightness"; "--on"]
  /\ shell_arguments
       (call_tool posix_host
          (write_request ControlLight (Some lamp_with_quotes))) =
     Some ["docker"; "run"; "-v"; "/home/hue/.openhue:/.openhue"; "--rm";
           "openhue/cli"; "set"; "light"; "Lamp"; "--brightness"; "7"; "x";
           "--on"].
Proof. repeat split; vm_compute; reflexivity. Qed.

(** C9. get-lights without arguments builds [get light --json] behind the
    fixed container-run prefix; with lightId "Desk Lamp" and room "Office"
    it builds [get light "Desk Lamp" --room "Office" --json], the
    identifier first, then the room flag, then the trailing [--json]. *)
Theorem get_lights_builds host data :
  data !! "lightId" = Some (JStr "Desk Lamp") ->
  data !! "room" = Some (JStr "Office") ->
  built_command
    (call_tool host {| name := "get-lights"; arguments := None |}) =
  Some ("docker run -v " +:+ dq +:+ join host (homedir host) ".openhue"
          +:+ ":/.openhue" +:+ dq +:+ " --rm openhue/cli "
          +:+ "get light --json")
  /\ built_command
       (call_tool host {| name := "get-lights"; arguments := Some ∅ |}) =
     Some ("docker run -v " +:+ dq +:+ join host (homedir host) ".openhue"
             +:+ ":/.openhue" +:+ dq +:+ " --rm openhue/cli "
             +:+ "get light --json")
  /\ built_command
       (call_tool host {| name := "get-lights"; arguments := Some data |}) =
     Some ("docker run -v " +:+ dq +:+ join host (homedir host) ".openhue"
             +:+ ":/.openhue" +:+ dq +:+ " --rm openhue/cli "
             +:+ "get light " +:+ dq +:+ "Desk Lamp" +:+ dq
             +:+ " --room " +:+ dq +:+ "Office" +:+ dq +:+ " --json").
Proof.
  intros Hl Hr. split; [reflexivity|]. split; [reflexivity|].
  change {| name := "get-lights"; arguments := Some data |}
    with (read_request GetLights (Some data)).
  rewrite call_read_built.
  - unfold read_command, opt_get. rewrite Hl, Hr. reflexivity.
  - unfold read_converts, opt_get. rewrite Hl, Hr. reflexivity.
Qed.

Lemma get_lights_builds_witness :
  built_command
    (call_tool posix_host
       {| name := "get-lights"; arguments := Some desk_lamp_query |}) =
  Some ("docker run -v " +:+ dq +:+ "/home/hue/.openhue:/.openhue" +:+ dq
          +:+ " --rm openhue/cli get light " +:+ dq +:+ "Desk Lamp" +:+ dq
          +:+ " --room " +:+ dq +:+ "Office" +:+ dq +:+ " --json").
Proof.
  apply (get_lights_builds posix_host desk_lamp_query); reflexivity.
Defined.

(** C10. For control-light and control-room, a bag whose color is the
    empty string builds the command of the same bag without a color, the
    base command followed by the brightness and temperature flags only,
    and the two calls end alike whatever the subprocess does; a brightness
    of 0, by contrast, is written out as [ --brightness 0]. *)
Theorem empty_color_dropped host w data :
  w = ControlLight \/ w = ControlRoom ->
  object_issues (shape (write_schema w)) data = [] ->
  built_command
    (call_tool host (write_request w (Some (<["color" := JStr ""]> data)))) =
  Some (buildDockerCommand host
          (set_base (kind_of w) data +:+ brightness_flag data
             +:+ temperature_flag data))
  /\ built_command
       (call_tool host (write_request w (Some (delete "color" data)))) =
     Some (buildDockerCommand host
             (set_base (kind_of w) data +:+ brightness_flag data
                +:+ temperature_flag data))
  /\ (forall os,
        run os (call_tool host
                  (write_request w (Some (<["color" := JStr ""]> data)))) =
        run os (call_tool host
                  (write_request w (Some (delete "color" data)))))
  /\ built_command
       (call_tool host
          (write_request w (Some (<["brightness" := JNum 0]> data)))) =
     Some (buildDockerCommand host
             (set_base (kind_of w) data +:+ " --brightness 0"
                +:+ color_flag data +:+ temperature_flag data)).
Proof.
  intros Hw Hv.
  pose proof (valid_with_empty_color w data Hw Hv) as Hv1.
  pose proof (valid_without w "color" data Hw (or_intror eq_refl) Hv) as Hv0.
  assert (built_command
            (call_tool host
               (write_request w (Some (<["color" := JStr ""]> data)))) =
          Some (buildDockerCommand host
                  (set_base (kind_of w) data +:+ brightness_flag data
                     +:+ temperature_flag data))) as B1.
  { rewrite (light_room_command host w _ Hw Hv1). do 3 f_equal.
    - flags_by_lookup.
    - f_equal; [flags_by_lookup|]. flags_by_lookup. }
  assert (built_command
            (call_tool host (write_request w (Some (delete "color" data)))) =
          Some (buildDockerCommand host
                  (set_base (kind_of w) data +:+ brightness_flag data
                     +:+ temperature_flag data))) as B0.
  { rewrite (light_room_command host w _ Hw Hv0). do 3 f_equal.
    - flags_by_lookup.
    - f_equal; [flags_by_lookup|]. flags_by_lookup. }
  split; [exact B1|]. split; [exact B0|]. split.
  - intros os. apply light_room_run; try assumption.
    + simpl_lookups. reflexivity.
    + simpl_lookups. reflexivity.
    + rewrite B1, B0. reflexivity.
  - assert (within 0 100 0) as Hz by (split; reflexivity).
    rewrite (light_room_command host w _ Hw
               (valid_with_brightness w data 0 Hw Hz Hv)).
    do 3 f_equal; [flags_by_lookup|].
    f_equal; [flags_by_lookup|]. f_equal; flags_by_lookup.
Qed.

Lemma empty_color_dropped_witness :
  built_command
    (call_tool posix_host (write_request ControlLight (Some colorless))) =
  Some ("docker run -v " +:+ dq +:+ "/home/hue/.openhue:/.openhue" +:+ dq
          +:+ " --rm openhue/cli set light " +:+ dq +:+ "Desk Lamp" +:+ dq
          +:+ " --on").
Proof.
  refine (proj1 (empty_color_dropped posix_host ControlLight plain_light _ _)).
  - left. reflexivity.
  - reflexivity.
Defined.

(** * Further properties of the handlers *)

Lemma commands_bind {A B} os (p : Prog A) (f : A -> Prog B) :
  commands_run os (bind p f) =
  (commands_run os p ++
   match run os p with
   | inl a => commands_run os (f a)
   | inr _ => []
   end)%list.
Proof. induction p as [a|e|cmd k IH]; simpl; [| |rewrite IH]; reflexivity. Qed.

Lemma commands_try_catch {A} os (p : Prog A) h :
  commands_run os (try_catch p h) =
  (commands_run os p ++
   match run os p with
   | inl _ => []
   | inr e => commands_run os (h e)
   end)%list.
Proof. induction p as [a|e|cmd k IH]; simpl; [| |rewrite IH]; reflexivity. Qed.

Lemma commands_executeHueCommand host os command :
  commands_run os (executeHueCommand host command) =
  [buildDockerCommand host command].
Proof.
  unfold executeHueCommand, execAsync. simpl.
  destruct (os _) as [code out err|msg]; simpl; [|reflexivity].
  destruct (code =? 0); simpl; [|reflexivity].
  destruct (String.eqb err ""); reflexivity.
Qed.

Lemma call_write_commands host os w args params :
  safe_parse (write_schema w) args = inl params ->
  commands_run os (call_tool host (write_request w args)) =
  [buildDockerCommand host (write_command w params)].
Proof.
  intros H. pose proof (write_handler_parsed host w args params H) as Hh.
  destruct w; enter_call; rewrite Hh;
    rewrite commands_try_catch, commands_bind, run_bind,
      commands_executeHueCommand, run_executeHueCommand;
    (destruct (execution_result _ _) as [out|[issues|msg]]; reflexivity).
Qed.

Lemma call_read_commands host os r args :
  read_converts r args = true ->
  commands_run os (call_tool host (read_request r args)) =
  [buildDockerCommand host (read_command r args)].
Proof.
  intros Hc. pose proof (read_handler_cases host r args) as Hh.
  rewrite Hc in Hh.
  destruct r; enter_call; rewrite Hh;
    rewrite commands_try_catch, commands_bind, run_bind,
      commands_executeHueCommand, run_executeHueCommand;
    (destruct (execution_result _ _) as [out|[issues|msg]]; reflexivity).
Qed.

Lemma execution_result_inl cmd o out :
  execution_result cmd o = inl out <-> exists code, o = Exited code out "" /\ code = 0.
Proof.
  destruct o as [code stdout stderr|msg]; cbn [execution_result].
  - destruct (Z.eqb_spec code 0) as [->|Hc].
    + destruct (String.eqb_spec stderr "") as [->|He]; split.
      * intros [= ->]. eauto.
      * intros (c & [= <- <-] & _). reflexivity.
      * discriminate.
      * intros (c & [= <- <- He'] & _). congruence.
    + split; [discriminate|]. intros (c & [= <- <- _] & Hc'). congruence.
  - split; [discriminate|]. intros (c & H & _). discriminate.
Qed.

Lemma buildDockerCommand_prefix host command :
  buildDockerCommand host command =
  ("docker run -v " +:+ dq +:+ join host (homedir host) ".openhue"
     +:+ ":/.openhue" +:+ dq +:+ " --rm openhue/cli ") +:+ command.
Proof.
  unfold buildDockerCommand, getConfigPath. rewrite !append_assoc.
  reflexivity.
Qed.

Lemma invalid_is_not_unknown issues n :
  @Throw Response (Error (invalid_arguments issues)) <>
  Throw (Error ("Unknown tool: " +:+ n)).
Proof. unfold invalid_arguments. intros H. discriminate H. Qed.

Lemma write_call_outcome host w args :
  (exists issues,
     safe_parse (write_schema w) args = inr issues
     /\ call_tool host (write_request w args) =
        Throw (Error (invalid_arguments issues)))
  \/ (exists params,
        safe_parse (write_schema w) args = inl params
        /\ built_command (call_tool host (write_request w args)) =
           Some (buildDockerCommand host (write_command w params))).
Proof.
  destruct (safe_parse (write_schema w) args) as [params|issues] eqn:Hp.
  - right. exists params. split; [reflexivity|]. apply call_write_built, Hp.
  - left. exists issues. split; [reflexivity|]. apply call_write_invalid, Hp.
Qed.

Lemma tool_name_cases n :
  (exists w, n = write_name w)
  \/ (exists r, n = read_name r)
  \/ (~ In n (map Tool.name tools)
      /\ forall host args,
           call_tool host {| name := n; arguments := args |} =
           Throw (Error ("Unknown tool: " +:+ n))).
Proof.
  destruct (String.eqb_spec n "get-lights") as [->|H1];
    [right; left; exists GetLights; reflexivity|].
  destruct (String.eqb_spec n "control-light") as [->|H2];
    [left; exists ControlLight; reflexivity|].
  destruct (String.eqb_spec n "get-rooms") as [->|H3];
    [right; left; exists GetRooms; reflexivity|].
  destruct (String.eqb_spec n "control-room") as [->|H4];
    [left; exists ControlRoom; reflexivity|].
  destruct (String.eqb_spec n "get-scenes") as [->|H5];
    [right; left; exists GetScenes; reflexivity|].
  destruct (String.eqb_spec n "activate-scene") as [->|H6];
    [left; exists ActivateScene; reflexivity|].
  right; right. split.
  - cbn. intros [E|[E|[E|[E|[E|[E|[]]]]]]]; congruence.
  - intros host args. unfold call_tool. cbn [name arguments].
    apply String.eqb_neq in H1, H2, H3, H4, H5, H6.
    rewrite H1, H2, H3, H4, H5, H6. reflexivity.
Qed.

(** X1. The catalog lists six distinct names, and the dispatcher knows
    exactly those: a call ends in the unknown-tool error if and only if its
    name is not in the catalog. *)
Theorem unknown_tool_iff_not_listed host request :
  NoDup (map Tool.name tools)
  /\ (call_tool host request =
        Throw (Error ("Unknown tool: " +:+ name request))
      <-> ~ In (name request) (map Tool.name tools)).
Proof.
  split.
  { apply (bool_decide_unpack _). vm_compute. exact I. }
  destruct request as [n args]. cbn [name].
  destruct (tool_name_cases n) as [(w & ->)|[(r & ->)|(Hn & Hu)]].
  - change {| name := write_name w; arguments := args |}
      with (write_request w args).
    split.
    + intros H. exfalso.
      destruct (write_call_outcome host w args)
        as [(issues & _ & Hc)|(params & _ & Hc)].
      * rewrite Hc in H. apply (invalid_is_not_unknown _ _ H).
      * apply (f_equal built_command) in H. rewrite Hc in H. discriminate.
    + intros H. exfalso. apply H. destruct w; cbn; tauto.
  - change {| name := read_name r; arguments := args |}
      with (read_request r args).
    split.
    + intros H. exfalso. destruct (read_converts r args) eqn:Hc.
      * pose proof (call_read_built host r args Hc) as Hb.
        rewrite H in Hb. discriminate.
      * rewrite (call_read_throws host r args Hc) in H.
        destruct r; discriminate H.
    + intros H. exfalso. apply H. destruct r; cbn; tauto.
  - split; [intros _; exact Hn|intros _; apply Hu].
Qed.

Lemma request_cases (request : CallToolRequest) :
  (exists w, request = write_request w (arguments request))
  \/ (exists r, request = read_request r (arguments request))
  \/ (forall host,
        call_tool host request =
        Throw (Error ("Unknown tool: " +:+ name request))).
Proof.
  destruct request as [n args]. cbn [name arguments].
  destruct (tool_name_cases n) as [(w & ->)|[(r & ->)|(_ & Hu)]].
  - left. exists w. reflexivity.
  - right. left. exists r. reflexivity.
  - right. right. intros host. apply Hu.
Qed.

(** X2. Whatever the request and whatever the subprocess does, a call
    hands at most one command line to the operating system, the one it
    built first, and that line starts with the fixed container-run prefix;
    a call that built none (unknown tool, invalid arguments, a value that
    cannot be converted to text) runs none. *)
Theorem one_command_behind_the_prefix host os request :
  (built_command (call_tool host request) = None
   /\ commands_run os (call_tool host request) = [])
  \/ (exists command,
        built_command (call_tool host request) =
          Some (("docker run -v " +:+ dq +:+ join host (homedir host) ".openhue"
                   +:+ ":/.openhue" +:+ dq +:+ " --rm openhue/cli ")
                  +:+ command)
        /\ commands_run os (call_tool host request) =
           [("docker run -v " +:+ dq +:+ join host (homedir host) ".openhue"
               +:+ ":/.openhue" +:+ dq +:+ " --rm openhue/cli ")
              +:+ command]).
Proof.
  destruct (request_cases request) as [(w & Hw)|[(r & Hr)|Hu]].
  - rewrite Hw.
    destruct (write_call_outcome host w (arguments request))
      as [(issues & _ & Hc)|(params & Hp & Hc)].
    + left. rewrite Hc. split; reflexivity.
    + right. exists (write_command w params).
      rewrite Hc, (call_write_commands host os w _ _ Hp),
        buildDockerCommand_prefix. split; reflexivity.
  - rewrite Hr. destruct (read_converts r (arguments request)) eqn:Hc.
    + right. exists (read_command r (arguments request)).
      rewrite (call_read_built _ _ _ Hc), (call_read_commands _ _ _ _ Hc),
        buildDockerCommand_prefix. split; reflexivity.
    + left. rewrite (call_read_throws _ _ _ Hc). split; reflexivity.
  - left. rewrite Hu. split; reflexivity.
Qed.

Lemma call_run_cases host os request :
  (built_command (call_tool host request) = None
   /\ exists msg, run os (call_tool host request) = inr (Error msg))
  \/ (exists cmd text,
        built_command (call_tool host request) = Some cmd
        /\ run os (call_tool host request) =
           match execution_result cmd (os cmd) with
           | inl out =>
               inl (text_response
                      (if existsb (String.eqb (name request))
                            ["get-lights"; "get-rooms"; "get-scenes"]
                       then out else text))
           | inr e => inr e
           end).
Proof.
  destruct (request_cases request) as [(w & Hw)|[(r & Hr)|Hu]].
  - rewrite Hw.
    destruct (write_call_outcome host w (arguments request))
      as [(issues & _ & Hc)|(params & Hp & Hc)].
    + left. rewrite Hc. split; [reflexivity|eauto].
    + right. exists (buildDockerCommand host (write_command w params)),
        (write_confirmation w params).
      split; [exact Hc|]. rewrite (call_write_run host os w _ _ Hp).
      destruct w; reflexivity.
  - rewrite Hr. destruct (read_converts r (arguments request)) eqn:Hc.
    + right.
      exists (buildDockerCommand host (read_command r (arguments request))),
        "".
      split; [apply call_read_built, Hc|]. rewrite (call_read_run _ _ _ _ Hc).
      destruct r; reflexivity.
    + left. rewrite (call_read_throws _ _ _ Hc).
      split; [reflexivity|]. eexists. reflexivity.
  - left. rewrite Hu. split; [reflexivity|eauto].
Qed.

(** X3. A call succeeds exactly when it built a command and the
    subprocess exited with status zero and an empty standard error; the
    response then holds one item, of type text. *)
Theorem call_succeeds_iff host os request :
  ((exists response, run os (call_tool host request) = inl response) <->
   (exists cmd stdout,
      built_command (call_tool host request) = Some cmd
      /\ os cmd = Exited 0 stdout ""))
  /\ (forall response,
        run os (call_tool host request) = inl response ->
        exists text,
          response = {| content := [TextContent.mk "text" text] |}).
Proof.
  destruct (call_run_cases host os request)
    as [(Hb & msg & Hr)|(cmd & text & Hb & Hr)].
  - split.
    + split.
      * intros (response & H). rewrite Hr in H. discriminate.
      * intros (cmd & stdout & H & _). rewrite Hb in H. discriminate.
    + intros response H. rewrite Hr in H. discriminate.
  - split.
    + split.
      * intros (response & H). rewrite Hr in H.
        destruct (execution_result cmd (os cmd)) as [out|e] eqn:He;
          [|discriminate].
        apply execution_result_inl in He as (code & Ho & ->).
        exists cmd, out. split; assumption.
      * intros (cmd' & stdout & Hb' & Ho).
        rewrite Hb in Hb'. injection Hb' as <-.
        rewrite Hr, Ho. cbn. eauto.
    + intros response H. rewrite Hr in H.
      destruct (execution_result cmd (os cmd)) as [out|e];
        [|discriminate].
      injection H as <-. eexists. reflexivity.
Qed.

(** X4. When a read tool's subprocess exits with status zero and an empty
    standard error, the response text is the captured standard output,
    character for character. *)
Theorem read_tools_return_stdout host os r args cmd stdout :
  built_command (call_tool host (read_request r args)) = Some cmd ->
  os cmd = Exited 0 stdout "" ->
  run os (call_tool host (read_request r args)) =
  inl {| content := [TextContent.mk "text" stdout] |}.
Proof.
  intros Hb Ho. destruct (read_built_inv _ _ _ _ Hb) as [Hc ->].
  rewrite (call_read_run _ _ _ _ Hc), Ho. reflexivity.
Qed.

Lemma read_tools_return_stdout_witness :
  run (fun _ => Exited 0 "[{'id': 1}]" "")
      (call_tool posix_host (read_request GetScenes (Some desk_lamp_query))) =
  inl {| content := [TextContent.mk "text" "[{'id': 1}]"] |}.
Proof.
  apply (read_tools_return_stdout posix_host
           (fun _ => Exited 0 "[{'id': 1}]" "") GetScenes
           (Some desk_lamp_query) _ "[{'id': 1}]" eq_refl eq_refl).
Defined.

(** X5. No zod error leaves the handler: whatever the request and the
    subprocess, a failing call ends in an [Error] carrying a message. *)
Theorem failures_are_plain_errors host os request e :
  run os (call_tool host request) = inr e ->
  exists msg, e = Error msg.
Proof.
  intros H.
  destruct (call_run_cases host os request)
    as [(Hb & msg & Hr)|(cmd & text & Hb & Hr)].
  - rewrite Hr in H. injection H as <-. eauto.
  - rewrite Hr in H.
    pose proof (execution_result_not_zod cmd (os cmd)) as Hz.
    destruct (execution_result cmd (os cmd)) as [out|[issues|msg]];
      [discriminate| |].
    + exfalso. apply (Hz issues). reflexivity.
    + injection H as <-. eauto.
Qed.

Lemma failures_are_plain_errors_witness :
  exists msg,
    Error "Invalid arguments: : Required" = Error msg.
Proof.
  apply (failures_are_plain_errors posix_host (fun _ => Exited 0 "" "")
           (write_request ControlLight None)
           (Error "Invalid arguments: : Required") eq_refl).
Defined.

(** X6. When the subprocess cannot be run at all, the call fails with the
    runtime's own error, its message unchanged. *)
Theorem spawn_failure_passes_through host os request cmd msg :
  built_command (call_tool host request) = Some cmd ->
  os cmd = ExecFailed msg ->
  run os (call_tool host request) = inr (Error msg).
Proof.
  intros Hb Ho.
  destruct (call_run_cases host os request)
    as [(Hb' & _)|(cmd' & text & Hb' & Hr)].
  - rewrite Hb in Hb'. discriminate.
  - rewrite Hb in Hb'. injection Hb' as <-. rewrite Hr, Ho. reflexivity.
Qed.

Lemma spawn_failure_passes_through_witness :
  run (fun _ => ExecFailed "spawn /bin/sh ENOENT")
      (call_tool posix_host (write_request ControlLight (Some desk_lamp_on))) =
  inr (Error "spawn /bin/sh ENOENT").
Proof.
  apply (spawn_failure_passes_through posix_host
           (fun _ => ExecFailed "spawn /bin/sh ENOENT")
           (write_request ControlLight (Some desk_lamp_on)) _
           "spawn /bin/sh ENOENT" eq_refl eq_refl).
Defined.

Lemma shape_agree shape (d1 d2 : gmap string JsValue) :
  (forall key, in_shape key shape = true -> d1 !! key = d2 !! key) ->
  object_issues shape d1 = object_issues shape d2
  /\ strip shape d1 = strip shape d2.
Proof.
  induction shape as [|[k t] shape IH]; intros H; [split; reflexivity|].
  assert (d1 !! k = d2 !! k) as Hk.
  { apply H.
    change (in_shape k ((k, t) :: shape))
      with (String.eqb k k || in_shape k shape).
    rewrite String.eqb_refl. reflexivity. }
  destruct IH as [Hi Hs].
  { intros key Hin. apply H.
    change (in_shape key ((k, t) :: shape))
      with (String.eqb k key || in_shape key shape).
    rewrite Hin. apply orb_true_r. }
  split.
  - unfold object_issues in *. cbn [flat_map]. rewrite Hi.
    unfold key_issues. cbn [fst snd]. rewrite Hk. reflexivity.
  - cbn [strip foldr fst] in *. fold (strip shape d1). fold (strip shape d2).
    rewrite Hs, Hk. reflexivity.
Qed.

Lemma safe_parse_agree schema (d1 d2 : gmap string JsValue) :
  (forall key, in_shape key (shape schema) = true -> d1 !! key = d2 !! key) ->
  safe_parse schema (Some d1) = safe_parse schema (Some d2).
Proof.
  intros H. destruct (shape_agree _ _ _ H) as [Hi Hs].
  unfold safe_parse. rewrite Hi, Hs. reflexivity.
Qed.

Lemma in_shape_In key shape :
  in_shape key shape = true -> In key (map fst shape).
Proof.
  unfold in_shape. intros H. apply existsb_exists in H as ([k t] & Hin & Hk).
  apply String.eqb_eq in Hk. cbn in Hk. subst k.
  apply (in_map fst) in Hin. exact Hin.
Qed.

(** X7. A handler reads only its own keys: putting any other key into the
    argument bag, with any value, leaves the whole call as it was. *)
Theorem other_keys_are_ignored host tool data key v :
  ~ In key (tool_keys tool) ->
  call_tool host {| name := tool; arguments := Some (<[key := v]> data) |} =
  call_tool host {| name := tool; arguments := Some data |}.
Proof.
  intros Hk.
  destruct (tool_name_cases tool) as [(w & ->)|[(r & ->)|(_ & Hu)]].
  - assert (safe_parse (write_schema w) (Some (<[key := v]> data)) =
            safe_parse (write_schema w) (Some data)) as Hp.
    { apply safe_parse_agree. intros k Hin. apply lookup_insert_ne.
      intros <-. apply Hk. apply in_shape_In in Hin.
      destruct w; exact Hin. }
    destruct w; unfold call_tool; cbn [name arguments write_name];
      cbn [String.eqb Ascii.eqb Bool.eqb];
      unfold control_light, control_room, activate_scene, parse;
      cbn [write_schema] in Hp; rewrite Hp; reflexivity.
  - destruct r; unfold call_tool; cbn [name arguments read_name];
      cbn [String.eqb Ascii.eqb Bool.eqb];
      unfold get_lights, get_rooms, get_scenes, opt_get;
      cbn in Hk;
      rewrite !lookup_insert_ne by (intros E; apply Hk; rewrite E; tauto);
      reflexivity.
  - rewrite !Hu. reflexivity.
Qed.

Lemma other_keys_are_ignored_witness :
  call_tool posix_host
    {| name := "control-light"; arguments := Some with_scratch_key |} =
  call_tool posix_host
    {| name := "control-light"; arguments := Some desk_lamp_on |}.
Proof.
  apply (other_keys_are_ignored posix_host "control-light" desk_lamp_on
           "transition" (JNum 4)).
  cbn. intros [H|[H|[H|[H|[H|[]]]]]]; discriminate H.
Defined.

(** X8. The read tools test their arguments for truthiness only: a value
    that JavaScript counts as false (the empty string, 0, [false], [null])
    is treated exactly as a missing one, whatever the key. *)
Theorem falsy_arguments_count_as_missing host r data key v :
  truthy (Some v) = false ->
  call_tool host (read_request r (Some (<[key := v]> data))) =
  call_tool host (read_request r (Some (delete key data))).
Proof.
  intros Hv.
  assert (forall k,
            truthy (<[key := v]> data !! k) = truthy (delete key data !! k)
            /\ (truthy (delete key data !! k) = true ->
                <[key := v]> data !! k = delete key data !! k)) as Hk.
  { intros k. destruct (String.eqb_spec key k) as [->|Hne].
    - rewrite lookup_insert_eq, lookup_delete_eq, Hv. split; [reflexivity|].
      discriminate.
    - rewrite lookup_insert_ne, lookup_delete_ne by exact Hne.
      split; reflexivity. }
  destruct r; unfold call_tool, read_request; cbn [name arguments read_name];
    cbn [String.eqb Ascii.eqb Bool.eqb];
    unfold get_lights, get_rooms, get_scenes, opt_get;
    repeat match goal with
           | |- context [truthy (<[key := v]> data !! ?k)] =>
               rewrite (proj1 (Hk k));
               let E := fresh "E" in
               destruct (truthy (delete key data !! k)) eqn:E;
               [rewrite (proj2 (Hk k) E)|]
           end; reflexivity.
Qed.

Lemma falsy_arguments_count_as_missing_witness :
  built_command
    (call_tool posix_host (read_request GetLights (Some light_zero))) =
  Some ("docker run -v " +:+ dq +:+ "/home/hue/.openhue:/.openhue" +:+ dq
          +:+ " --rm openhue/cli get light --room " +:+ dq +:+ "Office"
          +:+ dq +:+ " --json").
Proof.
  unfold light_zero.
  rewrite (falsy_arguments_count_as_missing posix_host GetLights
             (<["room" := JStr "Office"]> ∅) "lightId" (JNum 0) eq_refl).
  reflexivity.
Defined.

(** X9. activate-scene tests the room for truthiness: on a bag that passes
    validation, a room equal to the empty string gives the very call that
    the bag without a room gives, so no [--room] is written. *)
Theorem empty_room_is_dropped host data :
  object_issues (shape SceneActionSchema) data = [] ->
  built_command
    (call_tool host
       (write_request ActivateScene (Some (<["room" := JStr ""]> data)))) =
  built_command
    (call_tool host (write_request ActivateScene (Some (delete "room" data))))
  /\ forall os,
       run os (call_tool host
                 (write_request ActivateScene
                    (Some (<["room" := JStr ""]> data)))) =
       run os (call_tool host
                 (write_request ActivateScene (Some (delete "room" data)))).
Proof.
  intros Hv.
  assert (object_issues (shape SceneActionSchema) (<["room" := JStr ""]> data)
          = []) as Hv1 by scene_valid Hv.
  assert (object_issues (shape SceneActionSchema) (delete "room" data) = [])
    as Hv0 by scene_valid Hv.
  assert (safe_parse SceneActionSchema (Some (<["room" := JStr ""]> data)) =
          inl (strip (shape SceneActionSchema) (<["room" := JStr ""]> data)))
    as Hp1 by (unfold safe_parse; rewrite Hv1; reflexivity).
  assert (safe_parse SceneActionSchema (Some (delete "room" data)) =
          inl (strip (shape SceneActionSchema) (delete "room" data)))
    as Hp0 by (unfold safe_parse; rewrite Hv0; reflexivity).
  assert (scene_command
            (strip (shape SceneActionSchema) (<["room" := JStr ""]> data)) =
          scene_command (strip (shape SceneActionSchema) (delete "room" data)))
    as Hc.
  { unfold scene_command. rewrite !strip_lookup.
    cbn [in_shape existsb shape SceneActionSchema z_object fst String.eqb
         Ascii.eqb Bool.eqb orb].
    simpl_lookups. reflexivity. }
  assert (scene_confirmation
            (strip (shape SceneActionSchema) (<["room" := JStr ""]> data)) =
          scene_confirmation
            (strip (shape SceneActionSchema) (delete "room" data))) as Hm.
  { unfold scene_confirmation. rewrite !strip_lookup.
    cbn [in_shape existsb shape SceneActionSchema z_object fst String.eqb
         Ascii.eqb Bool.eqb orb].
    simpl_lookups. reflexivity. }
  split.
  - rewrite (call_write_built host ActivateScene _ _ Hp1),
      (call_write_built host ActivateScene _ _ Hp0).
    cbn [write_command]. rewrite Hc. reflexivity.
  - intros os.
    rewrite (call_write_run host os ActivateScene _ _ Hp1),
      (call_write_run host os ActivateScene _ _ Hp0).
    cbn [write_command write_confirmation]. rewrite Hc, Hm. reflexivity.
Qed.

Lemma empty_room_is_dropped_witness :
  built_command
    (call_tool posix_host
       (write_request ActivateScene (Some scene_with_empty_room))) =
  Some ("docker run -v " +:+ dq +:+ "/home/hue/.openhue:/.openhue" +:+ dq
          +:+ " --rm openhue/cli set scene " +:+ dq +:+ "Relaxing" +:+ dq
          +:+ " --action dynamic").
Proof.
  unfold scene_with_empty_room.
  rewrite (proj1 (empty_room_is_dropped posix_host relaxing_dynamic eq_refl)).
  reflexivity.
Defined.

(** X10. For control-light and control-room, a temperature that passed
    validation, whole or fractional, is never lost to the truthiness test
    that guards its flag (validation leaves no room for 0): the command of
    a valid bag with temperature t ends with [ --temperature t], after the
    brightness and color flags. *)
Theorem valid_temperature_is_written host w data (t : JsNumber) :
  w = ControlLight \/ w = ControlRoom ->
  object_issues (shape (write_schema w)) data = [] ->
  data !! "temperature" = Some (JNum t) ->
  built_command (call_tool host (write_request w (Some data))) =
  Some (buildDockerCommand host
          (set_base (kind_of w) data +:+ brightness_flag data
             +:+ color_flag data
             +:+ (" --temperature " +:+ number_to_string t))).
Proof.
  intros Hw Hv Ht. rewrite (light_room_command host w data Hw Hv).
  do 5 f_equal. unfold temperature_flag. rewrite Ht.
  rewrite (light_room_shape w Hw) in Hv.
  apply light_issues_nil in Hv as (_ & _ & _ & _ & [Hn|(k & Hk & Hr)]);
    [congruence|].
  rewrite Ht in Hk. injection Hk as <-.
  rewrite (above_zero_truthy 153 t); [reflexivity|lia|apply Hr].
Qed.

Lemma valid_temperature_is_written_witness :
  built_command
    (call_tool posix_host (write_request ControlRoom (Some fully_specified))) =
  Some ("docker run -v " +:+ dq +:+ "/home/hue/.openhue:/.openhue" +:+ dq
          +:+ " --rm openhue/cli set room " +:+ dq +:+ "Desk Lamp" +:+ dq
          +:+ " --on --brightness 0 --color red --temperature 499.5").
Proof.
  rewrite (valid_temperature_is_written posix_host ControlRoom
             fully_specified (decimal 4995 (-1)) (or_intror eq_refl) eq_refl
             eq_refl).
  reflexivity.
Defined.

(** X11. For control-light and control-room and every number given as
    brightness, whole or fractional: one below 0 or above 100 makes the
    call fail with the invalid-arguments error, which names the brightness
    field and the bound; from 0 to 100, both ends included, the field
    raises no issue. *)
Theorem brightness_range_enforced host w data (v : JsNumber) :
  w = ControlLight \/ w = ControlRoom ->
  data !! "brightness" = Some (JNum v) ->
  (number_lt v 0 = true ->
   call_tool host (write_request w (Some data)) =
     Throw (Error (invalid_arguments
                     (object_issues (shape (write_schema w)) data)))
   /\ contains "brightness: Number must be greater than or equal to 0"
        (invalid_arguments (object_issues (shape (write_schema w)) data)))
  /\ (number_gt v 100 = true ->
      call_tool host (write_request w (Some data)) =
        Throw (Error (invalid_arguments
                        (object_issues (shape (write_schema w)) data)))
      /\ contains "brightness: Number must be less than or equal to 100"
           (invalid_arguments (object_issues (shape (write_schema w)) data)))
  /\ (number_lt v 0 = false -> number_gt v 100 = false ->
      forall issue,
        In issue (object_issues (shape (write_schema w)) data) ->
        path issue <> ["brightness"]).
Proof.
  intros Hw Hb.
  assert (In ("brightness", z_optional (z_max 100 (z_min 0 z_number)))
             (shape (write_schema w))) as Hk.
  { rewrite (light_room_shape w Hw). cbn. tauto. }
  split; [|split].
  - intros Hlow.
    refine ((fun H => conj (proj1 H) (proj2 (proj2 H)))
              (violation_reported host w data _ _ _ Hk _)).
    rewrite Hb. apply in_or_app. left. cbn [check_number]. rewrite Hlow.
    left. reflexivity.
  - intros Hhigh.
    refine ((fun H => conj (proj1 H) (proj2 (proj2 H)))
              (violation_reported host w data _ _ _ Hk _)).
    rewrite Hb. apply in_or_app. right. apply in_or_app. left.
    cbn [check_number]. rewrite Hhigh. left. reflexivity.
  - intros Hlo Hhi. rewrite (light_room_shape w Hw).
    unfold object_issues, LightActionSchema, z_object.
    cbn [shape flat_map]. intros issue.
    rewrite !in_app_iff.
    intros [H|[H|[H|[H|[H|[]]]]]];
      try (apply key_issues_path in H; rewrite H; discriminate).
    unfold key_issues in H. cbn [fst snd] in H. rewrite Hb in H.
    cbn [type_issues z_optional z_max z_min z_number app flat_map
         check_number] in H.
    rewrite Hlo, Hhi in H. destruct H.
Qed.

Lemma brightness_range_enforced_witness :
  call_tool posix_host (write_request ControlLight (Some too_bright)) =
  Throw (Error
    "Invalid arguments: brightness: Number must be less than or equal to 100").
Proof.
  refine (proj1 (proj1 (proj2
    (brightness_range_enforced posix_host ControlLight too_bright
       (decimal 1005 (-1)) (or_introl eq_refl) eq_refl)) _)).
  reflexivity.
Defined.

(** X12. The action of control-light and control-room must be exactly
    [on] or [off], and the mode of activate-scene, when given, exactly
    [active], [dynamic] or [static]: any other string, a different
    capitalisation included, makes the call fail with the
    invalid-arguments error, which names the field, the words allowed and
    the string received. *)
Theorem enumerated_words_enforced host w data s :
  data !! enum_key w = Some (JStr s) ->
  ~ In s (enum_values w) ->
  call_tool host (write_request w (Some data)) =
    Throw (Error (invalid_arguments
                    (object_issues (shape (write_schema w)) data)))
  /\ contains (enum_key w +:+ ": Invalid enum value. Expected "
                 +:+ join_values (enum_values w) +:+ ", received '" +:+ s
                 +:+ "'")
       (invalid_arguments (object_issues (shape (write_schema w)) data)).
Proof.
  intros Hs Hn.
  assert (existsb (String.eqb s) (enum_values w) = false) as He.
  { destruct (existsb (String.eqb s) (enum_values w)) eqn:E; [|reflexivity].
    exfalso. apply Hn. apply existsb_exists in E as (x & Hin & Hx).
    apply String.eqb_eq in Hx. subst x. exact Hin. }
  destruct w; cbn [enum_key enum_values] in *.
  - refine ((fun H => conj (proj1 H) (proj2 (proj2 H)))
              (violation_reported host ControlLight data "action"
                 (z_enum ["on"; "off"]) _ _ _)); [cbn; tauto|].
    rewrite Hs. cbn [type_issues z_enum]. rewrite He. left. reflexivity.
  - refine ((fun H => conj (proj1 H) (proj2 (proj2 H)))
              (violation_reported host ControlRoom data "action"
                 (z_enum ["on"; "off"]) _ _ _)); [cbn; tauto|].
    rewrite Hs. cbn [type_issues z_enum]. rewrite He. left. reflexivity.
  - refine ((fun H => conj (proj1 H) (proj2 (proj2 H)))
              (violation_reported host ActivateScene data "mode"
                 (z_optional (z_enum ["active"; "dynamic"; "static"]))
                 _ _ _)); [cbn; tauto|].
    rewrite Hs. cbn [type_issues z_enum z_optional]. rewrite He.
    left. reflexivity.
Qed.

Lemma enumerated_words_enforced_witness :
  call_tool posix_host (write_request ControlLight (Some shouted_action)) =
  Throw (Error
    ("Invalid arguments: action: Invalid enum value. "
       +:+ "Expected 'on' | 'off', received 'ON'")).
Proof.
  refine (proj1 (enumerated_words_enforced posix_host ControlLight
                   shouted_action "ON" eq_refl _)).
  cbn. intros [H|[H|[]]]; discriminate H.
Defined.

Lemma set_command_rest kind params :
  set_command kind params =
  "set " +:+ kind +:+ " " +:+
    (dq +:+ template (params !! "target") +:+ dq +:+ " --"
       +:+ template (params !! "action") +:+ brightness_flag params
       +:+ color_flag params +:+ temperature_flag params).
Proof.
  rewrite set_command_flags. unfold set_base. rewrite !append_assoc.
  reflexivity.
Qed.

(** X13. control-light and control-room treat an argument bag alike: they
    refuse the same bags with the same message, and for every other bag
    they build commands that differ in the one word [light] or [room]. *)
Theorem light_and_room_agree host args :
  (exists issues,
     call_tool host {| name := "control-light"; arguments := args |} =
       Throw (Error (invalid_arguments issues))
     /\ call_tool host {| name := "control-room"; arguments := args |} =
        Throw (Error (invalid_arguments issues)))
  \/ (exists rest,
        built_command
          (call_tool host {| name := "control-light"; arguments := args |}) =
          Some (buildDockerCommand host ("set light " +:+ rest))
        /\ built_command
             (call_tool host {| name := "control-room"; arguments := args |}) =
           Some (buildDockerCommand host ("set room " +:+ rest))).
Proof.
  change {| name := "control-light"; arguments := args |}
    with (write_request ControlLight args).
  change {| name := "control-room"; arguments := args |}
    with (write_request ControlRoom args).
  destruct (safe_parse LightActionSchema args) as [params|issues] eqn:Hp.
  - right. eexists. split.
    + rewrite (call_write_built host ControlLight args params Hp).
      cbn [write_command]. rewrite set_command_rest. reflexivity.
    + rewrite (call_write_built host ControlRoom args params Hp).
      cbn [write_command]. rewrite set_command_rest. reflexivity.
  - left. exists issues. split.
    + apply (call_write_invalid host ControlLight args issues Hp).
    + apply (call_write_invalid host ControlRoom args issues Hp).
Qed.

(** X14. The two failures of a subprocess that ran have fixed messages: a
    non-zero exit gives [Command failed: ], the whole command line, a line
    break and the captured standard error; a zero exit with a non-empty
    standard error gives that standard error alone. *)
Theorem subprocess_failure_messages host os request cmd code stdout stderr :
  built_command (call_tool host request) = Some cmd ->
  os cmd = Exited code stdout stderr ->
  (code <> 0 ->
   run os (call_tool host request) =
   inr (Error ("Command failed: " +:+ cmd +:+ newline +:+ stderr)))
  /\ (code = 0 -> stderr <> "" ->
      run os (call_tool host request) = inr (Error stderr)).
Proof.
  intros Hb Ho.
  destruct (call_run_cases host os request)
    as [(Hb' & _)|(cmd' & text & Hb' & Hr)].
  - rewrite Hb in Hb'. discriminate.
  - rewrite Hb in Hb'. injection Hb' as <-. rewrite Hr, Ho.
    cbn [execution_result]. split.
    + intros Hc. destruct (Z.eqb_spec code 0); [contradiction|reflexivity].
    + intros -> He. cbn [Z.eqb].
      destruct (String.eqb_spec stderr ""); [contradiction|reflexivity].
Qed.

Lemma subprocess_failure_messages_witness :
  run (fun _ => Exited 2 "" "no such light")
      (call_tool posix_host (read_request GetLights None)) =
  inr (Error
         ("Command failed: docker run -v " +:+ dq
            +:+ "/home/hue/.openhue:/.openhue" +:+ dq
            +:+ " --rm openhue/cli get light --json" +:+ newline
            +:+ "no such light")).
Proof.
  refine (proj1 (subprocess_failure_messages posix_host
                   (fun _ => Exited 2 "" "no such light")
                   (read_request GetLights None) _ 2 "" "no such light"
                   eq_refl eq_refl) _).
  lia.
Defined.

(** X15. For a bag that passes validation, activate-scene builds
    [set scene "<name>"], then [ --room "<room>"] when the room is a
    non-empty string, then [ --action <mode>] whenever a mode is given: a
    validated mode is never lost to the truthiness test that guards it. *)
Theorem scene_command_by_fields host data n :
  object_issues (shape SceneActionSchema) data = [] ->
  data !! "name" = Some (JStr n) ->
  built_command
    (call_tool host (write_request ActivateScene (Some data))) =
  Some (buildDockerCommand host
          ("set scene " +:+ dq +:+ n +:+ dq +:+ scene_room_flag data
             +:+ scene_mode_flag data)).
Proof.
  intros Hv Hn.
  rewrite (write_valid_built host ActivateScene data Hv).
  do 2 f_equal. cbn [write_command write_schema]. unfold scene_command.
  rewrite !strip_lookup.
  cbn [in_shape existsb shape SceneActionSchema z_object fst String.eqb
       Ascii.eqb Bool.eqb orb].
  apply scene_issues_nil in Hv as (_ & Hr & Hm).
  unfold scene_room_flag, scene_mode_flag. rewrite Hn.
  cbn [template to_string].
  destruct Hr as [Hr|(r & Hr)]; rewrite Hr;
    destruct Hm as [Hm|(m & Hm & Hin)]; rewrite Hm;
    cbn [truthy template to_string];
    try destruct (String.eqb r ""); cbn [negb];
    try (destruct Hin as [<-|[<-|[<-|[]]]];
         cbn [String.eqb Ascii.eqb Bool.eqb negb]);
    rewrite ?append_assoc, ?append_nil_r; reflexivity.
Qed.

Lemma scene_command_by_fields_witness :
  built_command
    (call_tool posix_host (write_request ActivateScene (Some relaxing_in_den)))
  = Some ("docker run -v " +:+ dq +:+ "/home/hue/.openhue:/.openhue" +:+ dq
            +:+ " --rm openhue/cli set scene " +:+ dq +:+ "Relaxing" +:+ dq
            +:+ " --room " +:+ dq +:+ "Den" +:+ dq +:+ " --action dynamic").
Proof.
  rewrite (scene_command_by_fields posix_host relaxing_in_den "Relaxing"
             eq_refl eq_refl).
  reflexivity.
Defined.

Lemma unknown_tool_iff_not_listed_witness :
  ~ In "dim-lights" (map Tool.name tools).
Proof.
  apply (proj1 (proj2 (unknown_tool_iff_not_listed posix_host
                         {| name := "dim-lights"; arguments := None |}))).
  reflexivity.
Defined.

Lemma call_succeeds_iff_witness :
  exists response,
    run (fun _ => Exited 0 "[]" "")
        (call_tool posix_host (read_request GetRooms None)) = inl response.
Proof.
  apply (proj2 (proj1 (call_succeeds_iff posix_host
                         (fun _ => Exited 0 "[]" "")
                         (read_request GetRooms None)))).
  eexists. exists "[]". split; reflexivity.
Defined.
